(** * gofetch: the fetch pipeline

    A shallow embedding of the fetch pipeline of gofetch:
    - [processor]: [ContentProcessor.ProcessHTML] and
      [ContentProcessor.FormatContent] (package processor);
    - [robots]: the robots.txt checker consulted by the fetcher;
    - [fetcher]: [HTTPFetcher.FetchURL] and [HTTPFetcher.fetchURL]
      (pkg/fetcher/fetcher.go).

    Go strings are immutable byte sequences; they are modelled by [string],
    whose characters are the 256 byte values.  Go's [int] is modelled by [Z]
    (no arithmetic is performed on the integers of a request, so no
    wrap-around can occur).  A run-time panic is an explicit outcome. *)

From Stdlib Require Import ZArith String Ascii List Bool Lia.
From Stdlib Require Import DecimalString.
From stdpp Require Import base option gmap strings.

Local Open Scope Z_scope.

(** ** Go run-time behaviour shared by the packages *)

(** A Go expression either yields a value or panics. *)
Inductive outcome (A : Type) : Type :=
| Returned (a : A)
| Panicked.
Arguments Returned {A} a.
Arguments Panicked {A}.

#[global] Instance outcome_ret : MRet outcome := fun A a => Returned a.
#[global] Instance outcome_bind : MBind outcome := fun A B k o =>
  match o with
  | Returned a => k a
  | Panicked => Panicked
  end.

Module gostring.

(** [len(s)]: the number of bytes of [s]. *)
Definition len (s : string) : Z := Z.of_nat (String.length s).

Fixpoint drop_bytes (n : nat) (s : string) : string :=
  match n, s with
  | O, _ => s
  | S _, EmptyString => EmptyString
  | S n', String _ s' => drop_bytes n' s'
  end.

Fixpoint take_bytes (n : nat) (s : string) : string :=
  match n, s with
  | O, _ => EmptyString
  | S _, EmptyString => EmptyString
  | S n', String b s' => String b (take_bytes n' s')
  end.

(** [s[lo:]]: panics (slice bounds out of range) unless [0 <= lo <= len(s)]. *)
Definition slice_from (s : string) (lo : Z) : outcome string :=
  if (lo <? 0) || (len s <? lo) then Panicked
  else Returned (drop_bytes (Z.to_nat lo) s).

(** [s[:hi]]: panics (slice bounds out of range) unless [0 <= hi <= len(s)]. *)
Definition slice_to (s : string) (hi : Z) : outcome string :=
  if (hi <? 0) || (len s <? hi) then Panicked
  else Returned (take_bytes (Z.to_nat hi) s).

(** [strings.HasPrefix(s, prefix)]. *)
Fixpoint HasPrefix (s prefix : string) : bool :=
  match prefix, s with
  | EmptyString, _ => true
  | String _ _, EmptyString => false
  | String p prefix', String c s' =>
      if Ascii.eqb c p then HasPrefix s' prefix' else false
  end.

(** [strings.Contains(s, substr)]. *)
Fixpoint Contains (s substr : string) : bool :=
  HasPrefix s substr ||
  match s with
  | EmptyString => false
  | String _ s' => Contains s' substr
  end.

(** The line feed byte, written [\n] in Go string literals. *)
Definition LF : string := String (ascii_of_nat 10) EmptyString.

(** [%d] of [fmt]: the decimal representation of an integer. *)
Definition itoa (z : Z) : string := NilZero.string_of_int (Z.to_int z).

End gostring.

(** ** UTF-8 (package unicode/utf8 of the Go standard library)

    Needed to relate the byte positions the code works with to the code
    points the specification speaks about. *)
Module utf8.
Import gostring.

Definition byte_of (n : N) : ascii := ascii_of_N n.

(** The UTF-8 encoding of one code point (a Unicode scalar value). *)
Definition EncodeRune (r : N) : string :=
  (if r <? 128 then
     String (byte_of r) EmptyString
   else if r <? 2048 then
     String (byte_of (N.lor 192 (N.shiftr r 6)))
    (String (byte_of (N.lor 128 (N.land r 63))) EmptyString)
   else if r <? 65536 then
     String (byte_of (N.lor 224 (N.shiftr r 12)))
    (String (byte_of (N.lor 128 (N.land (N.shiftr r 6) 63)))
    (String (byte_of (N.lor 128 (N.land r 63))) EmptyString))
   else
     String (byte_of (N.lor 240 (N.shiftr r 18)))
    (String (byte_of (N.lor 128 (N.land (N.shiftr r 12) 63)))
    (String (byte_of (N.lor 128 (N.land (N.shiftr r 6) 63)))
    (String (byte_of (N.lor 128 (N.land r 63))) EmptyString))))%N.

(** The string whose code points are [rs] ([string(runes)] in Go). *)
Fixpoint encode (rs : list N) : string :=
  match rs with
  | nil => EmptyString
  | r :: rs' => EncodeRune r +:+ encode rs'
  end.

(** [utf8.RuneStart(b)]: [b] is not a continuation byte [10xxxxxx]. *)
Definition RuneStart (b : ascii) : bool :=
  negb (N.land (N_of_ascii b) 192 =? 128)%N.

(** [utf8.RuneCountInString(s)] on well-formed UTF-8: every code point has
    exactly one byte that is not a continuation byte. *)
Fixpoint RuneCountInString (s : string) : Z :=
  match s with
  | EmptyString => 0
  | String b s' => (if RuneStart b then 1 else 0) + RuneCountInString s'
  end.

(** A byte offset of [s] lies on a code point boundary when it is the end
    of [s] or the byte there starts a code point. *)
Definition on_boundary (s : string) (i : nat) : bool :=
  match drop_bytes i s with
  | EmptyString => true
  | String b _ => RuneStart b
  end.

(** [utf8.ValidString] restricted to what is needed here: no string that
    begins with a continuation byte is well-formed. *)
Definition starts_with_continuation (s : string) : bool :=
  match s with
  | EmptyString => false
  | String b _ => negb (RuneStart b)
  end.

End utf8.

(** ** Package processor *)
Module processor.
Import gostring.

(** The third-party libraries [ProcessHTML] calls: golang.org/x/net/html,
    go-readability and html-to-markdown.  Each call returns a value or an
    error; an [Article] is represented by its [Content] field, the only
    one read. *)
Record Libraries : Type := {
  Node : Type;
  html_Parse : string -> Node + string;
  readability_FromDocument : Node -> string + string;
  htmltomarkdown_ConvertString : string -> string + string
}.

(** [ContentProcessor.ProcessHTML]. *)
Definition ProcessHTML (L : Libraries) (htmlContent : string) : string :=
  match html_Parse L htmlContent with
  | inr _ => htmlContent
  | inl doc =>
      let htmlContent :=
        match readability_FromDocument L doc with
        | inl articleContent =>
            if negb (String.eqb articleContent EmptyString)
            then articleContent else htmlContent
        | inr _ => htmlContent
        end in
      match htmltomarkdown_ConvertString L htmlContent with
      | inr _ => htmlContent
      | inl markdown => markdown
      end
  end.

Definition truncation_marker : string :=
  LF +:+ LF +:+ "[Content truncated. Use start_index to get more content.]".

(** [ContentProcessor.FormatContent]; [startIndex] and [maxLength] are the
    [*int] arguments, [None] for [nil]. *)
Definition FormatContent (content : string) (startIndex maxLength : option Z)
  : outcome string :=
  let start := match startIndex with Some i => i | None => 0 end in
  let start := if start >? len content then len content else start in
  content ← slice_from content start;
  match maxLength with
  | Some m =>
      if len content >? m then
        content ← slice_to content m;
        Returned (content +:+ truncation_marker)
      else Returned content
  | None => Returned content
  end.

End processor.


(** ** Package net/http, as far as the pipeline uses it *)
Module nethttp.

(** [http.Header], with one value per key. *)
Definition Header_Get (h : gmap string string) (key : string) : string :=
  default EmptyString (h !! key).

Record Request : Type := {
  Method : string;
  URL : string;
  Header : gmap string string
}.

(** [req.Header.Set(key, value)]. *)
Definition Header_Set (req : Request) (key value : string) : Request :=
  {| Method := Method req; URL := URL req;
     Header := <[key := value]> (Header req) |}.

(** A response; [Body] is what [io.ReadAll(resp.Body)] yields: the bytes
    or a read error. *)
Record Response : Type := {
  StatusCode : Z;
  Status : string;
  RespHeader : gmap string string;
  Body : string + string
}.

Definition StatusOK : Z := 200.

(** The parts of net/http whose results depend on the outside world:
    [invalidURL] is the error [http.NewRequest] reports for a URL it does
    not accept, [RoundTrip] is what one call of [Client.Do] hands back for
    a request: a response or an error.  The clients of this program set no
    [CheckRedirect], so [Client.Do] follows redirects by the default
    policy of net/http: the response handed back is the one that ends the
    exchange, and the requests the client sends on the way are its own,
    inside the call. *)
Record Client : Type := {
  invalidURL : string -> option string;
  RoundTrip : Request -> Response + string
}.

(** [http.NewRequest(method, url, nil)]. *)
Definition NewRequest (c : Client) (method url : string) : Request + string :=
  match invalidURL c url with
  | Some err => inr err
  | None => inl {| Method := method; URL := url; Header := ∅ |}
  end.

End nethttp.

(** ** Package observability: the metric calls the fetcher makes *)
Module observability.

(** One constructor per [Metrics] method called from the fetcher;
    durations are left out. *)
Inductive MetricCall : Type :=
| RecordRobotsCheck (url result : string)
| RecordRobotsBlocked (url : string)
| RecordHTMLToMarkdownConversion (success : bool)
| RecordContentProcessing (contentType : string)
| RecordContentSizeRatio (originalSize processedSize : Z).

End observability.

(** ** Package robots: the robots.txt policy of an origin

    Package robots is imported by the fetcher and the server, its own
    source is not among the files embedded here; it is modelled from the
    specification of RobotsGate. *)
Module robotstxt.
Import gostring.

(** Modelled from the spec: a rule of a robots policy, an allow or
    disallow path pattern. *)
Record Rule : Type := { isAllow : bool; pattern : string }.

(** Modelled from the spec: a group of a robots policy, an agent pattern
    with its rules in the order of the file. *)
Record Group : Type := { agent : string; rules : list Rule }.

Definition Policy : Type := list Group.

(** Modelled from the spec: the permissive policy of a failed fetch. *)
Definition allowAll : Policy := nil.

Definition is_space (c : ascii) : bool :=
  Ascii.eqb c " " || Ascii.eqb c (ascii_of_nat 9) || Ascii.eqb c (ascii_of_nat 13).

Fixpoint trim_left (s : string) : string :=
  match s with
  | EmptyString => EmptyString
  | String c s' => if is_space c then trim_left s' else s
  end.

Fixpoint trim_right (s : string) : string :=
  match s with
  | EmptyString => EmptyString
  | String c s' =>
      let r := trim_right s' in
      if is_space c && String.eqb r EmptyString then EmptyString
      else String c r
  end.

Definition trim (s : string) : string := trim_right (trim_left s).

Definition lower_byte (c : ascii) : ascii :=
  let n := nat_of_ascii c in
  if (65 <=? n)%nat && (n <=? 90)%nat then ascii_of_nat (n + 32) else c.

Fixpoint ToLower (s : string) : string :=
  match s with
  | EmptyString => EmptyString
  | String c s' => String (lower_byte c) (ToLower s')
  end.

(** The lines of a text, separated by line feeds. *)
Fixpoint split_lines (s : string) : list string :=
  match s with
  | EmptyString => EmptyString :: nil
  | String c s' =>
      if Ascii.eqb c (ascii_of_nat 10) then EmptyString :: split_lines s'
      else match split_lines s' with
           | l :: ls => String c l :: ls
           | nil => String c EmptyString :: nil
           end
  end.

(** [strings.Cut(s, ":")]. *)
Fixpoint cut_colon (s : string) : option (string * string) :=
  match s with
  | EmptyString => None
  | String c s' =>
      if Ascii.eqb c ":" then Some (EmptyString, s')
      else match cut_colon s' with
           | Some (k, v) => Some (String c k, v)
           | None => None
           end
  end.

Fixpoint add_rule (r : Rule) (gs : list Group) : list Group :=
  match gs with
  | nil => nil
  | g :: nil => {| agent := agent g; rules := rules g ++ r :: nil |} :: nil
  | g :: gs' => g :: add_rule r gs'
  end.

(** Modelled from the spec: one line of a robots.txt body.  A user-agent
    line opens a group, an allow or disallow line with a path adds a rule
    to the open group, any other line is skipped. *)
Definition parse_line (gs : list Group) (line : string) : list Group :=
  match cut_colon line with
  | None => gs
  | Some (k, v) =>
      let key := ToLower (trim k) in
      let value := trim v in
      if String.eqb key "user-agent" then
        gs ++ {| agent := value; rules := nil |} :: nil
      else if String.eqb value EmptyString then gs
      else if String.eqb key "disallow" then
        add_rule {| isAllow := false; pattern := value |} gs
      else if String.eqb key "allow" then
        add_rule {| isAllow := true; pattern := value |} gs
      else gs
  end.

(** Modelled from the spec: parsing extracts the groups of a robots.txt
    body; unparsable lines are skipped, not fatal. *)
Definition Parse (body : string) : Policy :=
  fold_left parse_line (split_lines body) nil.

Definition is_wildcard (g : Group) : bool := String.eqb (agent g) "*".

Definition agent_matches (userAgent : string) (g : Group) : bool :=
  negb (is_wildcard g) && Contains (ToLower userAgent) (ToLower (agent g)).

(** The first group with the longest agent pattern. *)
Fixpoint most_specific (best : option Group) (gs : list Group) : option Group :=
  match gs with
  | nil => best
  | g :: gs' =>
      match best with
      | Some b =>
          if (String.length (agent b) <? String.length (agent g))%nat
          then most_specific (Some g) gs' else most_specific best gs'
      | None => most_specific (Some g) gs'
      end
  end.

(** Modelled from the spec: among the groups matching the configured user
    agent, a named-agent group takes precedence over the wildcard group. *)
Definition select_group (userAgent : string) (p : Policy) : option Group :=
  match most_specific None (List.filter (agent_matches userAgent) p) with
  | Some g => Some g
  | None => head (List.filter is_wildcard p)
  end.

Fixpoint strip_trailing_star (s : string) : string :=
  match s with
  | EmptyString => EmptyString
  | String c EmptyString => if Ascii.eqb c "*" then EmptyString else s
  | String c s' => String c (strip_trailing_star s')
  end.

(** Modelled from the spec: path prefixes, with a trailing [*] wildcard. *)
Definition rule_matches (path : string) (r : Rule) : bool :=
  HasPrefix path (strip_trailing_star (pattern r)).

(** Modelled from the spec: the longest matching pattern wins, and a tie
    between disallow and allow of equal length favours allow. *)
Fixpoint longest_match (best : option Rule) (rs : list Rule) : option Rule :=
  match rs with
  | nil => best
  | r :: rs' =>
      match best with
      | None => longest_match (Some r) rs'
      | Some b =>
          let lb := String.length (pattern b) in
          let lr := String.length (pattern r) in
          if (lb <? lr)%nat || ((lb =? lr)%nat && isAllow r)
          then longest_match (Some r) rs' else longest_match best rs'
      end
  end.

(** Modelled from the spec: no match in any applicable group means
    allowed. *)
Definition Allows (userAgent : string) (p : Policy) (path : string) : bool :=
  match select_group userAgent p with
  | None => true
  | Some g =>
      match longest_match None (List.filter (rule_matches path) (rules g)) with
      | None => true
      | Some r => isAllow r
      end
  end.

(** Modelled from the spec: a cached policy with its fetch timestamp and
    time to live. *)
Record CacheEntry : Type := { policy : Policy; fetchedAt : Z; ttl : Z }.

Fixpoint split_scheme (s : string) : option (string * string) :=
  match s with
  | EmptyString => None
  | String c s' =>
      if HasPrefix s "://" then Some (EmptyString, drop_bytes 3 s)
      else match split_scheme s' with
           | Some (scheme, rest) => Some (String c scheme, rest)
           | None => None
           end
  end.

Fixpoint split_host (s : string) : string * string :=
  match s with
  | EmptyString => (EmptyString, EmptyString)
  | String c s' =>
      if Ascii.eqb c "/" then (EmptyString, s)
      else let (host, path) := split_host s' in (String c host, path)
  end.

(** Modelled from the spec: the origin (scheme, host and port) of a URL,
    and the path below it. *)
Definition split_url (url : string) : string * string :=
  match split_scheme url with
  | Some (scheme, rest) =>
      let (host, path) := split_host rest in
      (scheme +:+ "://" +:+ host,
       if String.eqb path EmptyString then "/"%string else path)
  | None => (EmptyString, url)
  end.

End robotstxt.

(** ** The state a request runs in

    What a request can observe and change outside its own variables: the
    calls of the HTTP client and the metrics recorded (in order), the origin
    cache of the robots checker, and the clock.  A [ContentRequest] is one
    call of [Client.Do] by the fetcher, with the request handed over; the
    requests the client sends by itself when it follows redirects are not
    events of their own. *)
Inductive Event : Type :=
| RobotsTxtRequest (url : string)
| ContentRequest (req : nethttp.Request)
| Metric (call : observability.MetricCall).

Record World : Type := {
  trace : list Event;
  robotsCache : gmap string robotstxt.CacheEntry;
  now : Z
}.

Definition M (A : Type) : Type := World -> A * World.

#[global] Instance M_ret : MRet M := fun A a w => (a, w).
#[global] Instance M_bind : MBind M := fun A B k m w =>
  let (a, w') := m w in k a w'.

Definition emit (e : Event) : M unit := fun w =>
  (tt, {| trace := trace w ++ e :: nil; robotsCache := robotsCache w; now := now w |}).

Definition cache_lookup (origin : string) : M (option robotstxt.CacheEntry) :=
  fun w => (robotsCache w !! origin, w).

Definition cache_store (origin : string) (e : robotstxt.CacheEntry) : M unit :=
  fun w => (tt, {| trace := trace w; robotsCache := <[origin := e]> (robotsCache w);
                   now := now w |}).

Definition time_Now : M Z := fun w => (now w, w).

(** The content requests of a trace: the requests the fetcher handed to
    [Client.Do], one per call. *)
Definition content_requests (t : list Event) : list nethttp.Request :=
  omap (fun e => match e with ContentRequest r => Some r | _ => None end) t.

Module robots.
Import gostring nethttp robotstxt.

(** Modelled from the spec: the robots checker, built by
    [robots.NewChecker(userAgent, ignoreRobots, client)]; the two times to
    live are those of a parsed policy and of the permissive policy of a
    failed fetch. *)
Record Checker : Type := {
  userAgent : string;
  ignoreRobots : bool;
  httpClient : Client;
  policyTTL : Z;
  failureTTL : Z
}.

(** Modelled from the spec: the fetch of [<origin>/robots.txt]; a failed
    fetch (network error, non-200, unreadable body) yields the permissive
    policy, cached with the shorter time to live. *)
Definition fetch_policy (c : Checker) (origin : string) : M CacheEntry :=
  let robotsURL := origin +:+ "/robots.txt" in
  t ← time_Now;
  emit (RobotsTxtRequest robotsURL);;
  let req := Header_Set {| Method := "GET"; URL := robotsURL; Header := ∅ |}
               "User-Agent" (userAgent c) in
  let permissive := {| policy := allowAll; fetchedAt := t; ttl := failureTTL c |} in
  let entry :=
    match RoundTrip (httpClient c) req with
    | inr _ => permissive
    | inl resp =>
        if negb (StatusCode resp =? StatusOK) then permissive
        else match Body resp with
             | inr _ => permissive
             | inl body =>
                 {| policy := Parse body; fetchedAt := t; ttl := policyTTL c |}
             end
    end in
  cache_store origin entry;;
  mret entry.

Definition fresh (t : Z) (e : CacheEntry) : bool := t <? fetchedAt e + ttl e.

(** Modelled from the spec: [Checker.IsAllowed(url)], whose source is not
    at hand.  With the bypass flag it answers true without any network
    access; otherwise it evaluates the fresh cached policy of the URL's
    origin, fetching it first when it is absent or expired. *)
Definition IsAllowed (c : Checker) (url : string) : M bool :=
  if ignoreRobots c then mret true
  else
    let (origin, path) := split_url url in
    t ← time_Now;
    cached ← cache_lookup origin;
    entry ← match cached with
            | Some e => if fresh t e then mret e else fetch_policy c origin
            | None => fetch_policy c origin
            end;
    mret (Allows (userAgent c) (policy entry) path).

End robots.

(** ** Package fetcher (pkg/fetcher/fetcher.go) *)
Module fetcher.
Import gostring nethttp observability processor.

(** [HTTPFetcher]; [metrics] tells whether the metrics pointer is set.
    The content processor has no fields of its own: what it carries here
    are the libraries it calls. *)
Record HTTPFetcher : Type := {
  httpClient : Client;
  robotsChecker : robots.Checker;
  processor : Libraries;
  userAgent : string;
  metrics : bool
}.

Record FetchRequest : Type := {
  ReqURL : string;
  MaxLength : option Z;
  StartIndex : option Z;
  Raw : bool
}.

(** A Go [error]: [None] is [nil], [Some msg] an error with that message. *)
Definition error : Type := option string.

(** [if f.metrics != nil { f.metrics.<call> }]. *)
Definition record (f : HTTPFetcher) (call : MetricCall) : M unit :=
  if metrics f then emit (Metric call) else mret tt.

(** [f.httpClient.Do(req)]: one call of the client, traced as such, and
    what the call hands back. *)
Definition Do (c : Client) (req : Request) : M (Response + string) :=
  emit (ContentRequest req);;
  mret (RoundTrip c req).

(** [HTTPFetcher.fetchURL]. *)
Definition fetchURL (f : HTTPFetcher) (url : string) (raw : bool)
  : M (string * error) :=
  match NewRequest (httpClient f) "GET" url with
  | inr err => mret (EmptyString, Some ("failed to create request: " +:+ err))
  | inl req =>
      let req := Header_Set req "User-Agent" (userAgent f) in
      let req := Header_Set req "Accept"
        "text/html,application/xhtml+xml,application/xml;q=0.9,*/*;q=0.8" in
      r ← Do (httpClient f) req;
      match r with
      | inr err => mret (EmptyString, Some ("failed to fetch URL: " +:+ err))
      | inl resp =>
          if negb (StatusCode resp =? StatusOK) then
            mret (EmptyString,
                  Some ("HTTP " +:+ itoa (StatusCode resp) +:+ ": " +:+ Status resp))
          else
            match Body resp with
            | inr err =>
                mret (EmptyString, Some ("failed to read response body: " +:+ err))
            | inl body =>
                let content := body in
                let originalSize := len body in
                content ←
                  (if negb raw &&
                      Contains (Header_Get (RespHeader resp) "Content-Type") "text/html"
                   then
                     let processedContent := ProcessHTML (processor f) content in
                     record f (RecordHTMLToMarkdownConversion true);;
                     record f (RecordContentProcessing "text/html");;
                     record f (RecordContentSizeRatio originalSize (len processedContent));;
                     mret processedContent
                   else mret content);
                mret (content, None)
            end
      end
  end.

(** [HTTPFetcher.FetchURL].  The formatting step can panic, so the result
    is an outcome. *)
Definition FetchURL (f : HTTPFetcher) (req : FetchRequest)
  : M (outcome (string * error)) :=
  record f (RecordRobotsCheck (ReqURL req) "checking");;
  allowed ← robots.IsAllowed (robotsChecker f) (ReqURL req);
  if negb allowed then
    record f (RecordRobotsCheck (ReqURL req) "disallowed");;
    record f (RecordRobotsBlocked (ReqURL req));;
    mret (Returned (EmptyString,
                    Some ("access to " +:+ ReqURL req +:+ " is disallowed by robots.txt")))
  else
    record f (RecordRobotsCheck (ReqURL req) "allowed");;
    '(content, err) ← fetchURL f (ReqURL req) (Raw req);
    match err with
    | Some e => mret (Returned (EmptyString, Some e))
    | None =>
        mret (formattedContent ← FormatContent content (StartIndex req) (MaxLength req);
              mret (formattedContent, None))
    end.

End fetcher.

(** ** Vocabulary of the specification *)

Import gostring.

(** The data model of a request: [startIndex] is a non-negative integer and
    [maxLength] a positive one, both optional. *)
Definition nonneg (i : option Z) : Prop :=
  match i with Some z => 0 <= z | None => True end.

Definition positive (i : option Z) : Prop :=
  match i with Some z => 0 < z | None => True end.

Definition valid_request (req : fetcher.FetchRequest) : Prop :=
  nonneg (fetcher.StartIndex req) /\ positive (fetcher.MaxLength req).

(** The content that remains after the start offset, the offset being
    limited to the length of the content in bytes. *)
Definition remaining (content : string) (startIndex : option Z) : string :=
  drop_bytes (Z.to_nat (Z.min (default 0 startIndex) (len content))) content.

(** The paginator as the specification words it: over the code points of
    the content.  The offset is clamped into [[0, length]], the cut keeps
    [maxLength] code points, and the marker follows a cut. *)
Definition Slice (runes : list N) (startIndex maxLength : option Z) : string :=
  let length := Z.of_nat (List.length runes) in
  let start := Z.max 0 (Z.min (default 0 startIndex) length) in
  let rest := drop (Z.to_nat start) runes in
  match maxLength with
  | Some m =>
      if Z.of_nat (List.length rest) >? m
      then utf8.encode (take (Z.to_nat m) rest) +:+ processor.truncation_marker
      else utf8.encode rest
  | None => utf8.encode rest
  end.



(** The request [fetchURL] hands to the client for a URL. *)
Definition request_sent (f : fetcher.HTTPFetcher) (url : string) : nethttp.Request :=
  nethttp.Header_Set
    (nethttp.Header_Set
       {| nethttp.Method := "GET"; nethttp.URL := url; nethttp.Header := ∅ |}
       "User-Agent" (fetcher.userAgent f))
    "Accept" "text/html,application/xhtml+xml,application/xml;q=0.9,*/*;q=0.8".

(** The world once the client has been called with a content request. *)
Definition sent (req : nethttp.Request) (w : World) : World :=
  snd (emit (ContentRequest req) w).

(** The verdict of the robots checker as [FetchURL] obtains it: after the
    metric of the check, in the world of the request. *)
Definition robots_verdict (f : fetcher.HTTPFetcher) (req : fetcher.FetchRequest)
  : M bool :=
  fetcher.record f
    (observability.RecordRobotsCheck (fetcher.ReqURL req) "checking");;
  robots.IsAllowed (fetcher.robotsChecker f) (fetcher.ReqURL req).

(** Content made of code points that UTF-8 encodes in one byte. *)
Definition single_byte (runes : list N) : Prop :=
  Forall (fun r => (r < 128)%N) runes.

(** ** A concrete deployment, for running the pipeline *)
Module scenario.
Import nethttp processor.

(** The text between the tags of a document. *)
Fixpoint strip_tags (inTag : bool) (s : string) : string :=
  match s with
  | EmptyString => EmptyString
  | String c s' =>
      if Ascii.eqb c "<" then strip_tags true s'
      else if Ascii.eqb c ">" then strip_tags false s'
      else if inTag then strip_tags inTag s'
      else String c (strip_tags inTag s')
  end.

(** Libraries in which readability finds no article; parsing and
    conversion succeed or fail as asked, and a successful conversion
    keeps the text of the document. *)
Definition libs_of (parses converts : bool) : Libraries := {|
  Node := string;
  html_Parse := fun s =>
    if parses then inl s else inr "html: read error"%string;
  readability_FromDocument := fun _ => inr "no article found"%string;
  htmltomarkdown_ConvertString := fun s =>
    if converts then inl (strip_tags false s) else inr "conversion failed"%string
|}.

Definition libs : Libraries := libs_of true true.

Definition html_header : gmap string string :=
  {[ "Content-Type"%string := "text/html; charset=utf-8"%string ]}.

Definition ok (body : string) : Response + string :=
  inl {| StatusCode := 200; Status := "200 OK"; RespHeader := html_header;
         Body := inl body |}.

(** A site with a robots.txt, a public page, and nothing else. *)
Definition site (req : Request) : Response + string :=
  if String.eqb (URL req) "https://example.com/robots.txt" then
    ok ("User-agent: *" +:+ LF +:+ "Disallow: /private")
  else if String.eqb (URL req) "https://example.com/public/page" then
    ok "<p>hi</p>"
  else if HasPrefix (URL req) "https://example.com/" then
    inl {| StatusCode := 404; Status := "404 Not Found"; RespHeader := html_header;
           Body := inl "<h1>Not Found</h1>"%string |}
  else inr "dial tcp: connection refused"%string.

Definition client : Client := {| invalidURL := fun _ => None; RoundTrip := site |}.

Definition checker (bypass : bool) : robots.Checker := {|
  robots.userAgent := "gofetch";
  robots.ignoreRobots := bypass;
  robots.httpClient := client;
  robots.policyTTL := 3600;
  robots.failureTTL := 300
|}.

Definition fetcher_of (bypass : bool) : fetcher.HTTPFetcher := {|
  fetcher.httpClient := client;
  fetcher.robotsChecker := checker bypass;
  fetcher.processor := libs;
  fetcher.userAgent := "gofetch";
  fetcher.metrics := true
|}.

Definition start : World := {| trace := nil; robotsCache := ∅; now := 0 |}.

Definition request (url : string) (raw : bool) : fetcher.FetchRequest := {|
  fetcher.ReqURL := url; fetcher.MaxLength := None;
  fetcher.StartIndex := None; fetcher.Raw := raw
|}.

End scenario.

(** ** Reading a trace *)

(** The results given to [RecordRobotsCheck], in order. *)
Definition robots_check_results (t : list Event) : list string :=
  omap (fun e => match e with
                 | Metric (observability.RecordRobotsCheck _ result) => Some result
                 | _ => None
                 end) t.

(** The URLs given to [RecordRobotsBlocked], in order. *)
Definition robots_blocked (t : list Event) : list string :=
  omap (fun e => match e with
                 | Metric (observability.RecordRobotsBlocked url) => Some url
                 | _ => None
                 end) t.

(** The metric calls of a trace, in order. *)
Definition metric_calls (t : list Event) : list observability.MetricCall :=
  omap (fun e => match e with Metric call => Some call | _ => None end) t.

(** A fetcher with its metrics pointer set or cleared. *)
Definition set_metrics (enabled : bool) (f : fetcher.HTTPFetcher) : fetcher.HTTPFetcher :=
  {| fetcher.httpClient := fetcher.httpClient f;
     fetcher.robotsChecker := fetcher.robotsChecker f;
     fetcher.processor := fetcher.processor f;
     fetcher.userAgent := fetcher.userAgent f;
     fetcher.metrics := enabled |}.

(** Two worlds that differ at most in what has been traced. *)
Definition same_state (w1 w2 : World) : Prop :=
  robotsCache w1 = robotsCache w2 /\ now w1 = now w2.

(** A world with its trace cleared. *)
Definition untraced (w : World) : World :=
  {| trace := nil; robotsCache := robotsCache w; now := now w |}.

(** A world with earlier events put before its trace. *)
Definition after_events (t : list Event) (w : World) : World :=
  {| trace := t ++ trace w; robotsCache := robotsCache w; now := now w |}.

(** ** Libraries that find an article *)
Module fixtures.
Import processor.

(** What follows the first occurrence of a substring. *)
Fixpoint after (substr s : string) : option string :=
  if HasPrefix s substr then Some (drop_bytes (String.length substr) s)
  else match s with
       | EmptyString => None
       | String _ s' => after substr s'
       end.

(** What precedes the first occurrence of a substring. *)
Fixpoint before (substr s : string) : string :=
  if HasPrefix s substr then EmptyString
  else match s with
       | EmptyString => EmptyString
       | String c s' => String c (before substr s')
       end.

(** Libraries whose readability keeps what stands between the article
    tags of a document; conversion succeeds or fails as asked. *)
Definition article_libs (converts : bool) : Libraries := {|
  Node := string;
  html_Parse := fun s => inl s;
  readability_FromDocument := fun doc =>
    match after "<article>" doc with
    | Some rest => inl (before "</article>" rest)
    | None => inr "no article found"%string
    end;
  htmltomarkdown_ConvertString := fun s =>
    if converts then inl (scenario.strip_tags false s)
    else inr "conversion failed"%string
|}.

Definition page : string :=
  "<nav>menu</nav><article><p>story</p></article><footer>legal</footer>".

End fixtures.

(** What [FetchURL] returns once [fetchURL] has returned: the error as it
    is, or the content paginated. *)
Definition paginate (req : fetcher.FetchRequest) (fetched : string * fetcher.error)
  : outcome (string * fetcher.error) :=
  match snd fetched with
  | Some e => Returned (EmptyString, Some e)
  | None =>
      match processor.FormatContent (fst fetched)
              (fetcher.StartIndex req) (fetcher.MaxLength req) with
      | Returned text => Returned (text, None)
      | Panicked => Panicked
      end
  end.

(** ** More of the Go standard library: strings, strconv, indexing *)
Module gotext.
Import gostring.

(** [strings.Index(s, substr)]: the index of the first occurrence, or -1. *)
Fixpoint Index_from (i : Z) (s substr : string) : Z :=
  if HasPrefix s substr then i
  else match s with
       | EmptyString => -1
       | String _ s' => Index_from (i + 1) s' substr
       end.

Definition Index (s substr : string) : Z := Index_from 0 s substr.

(** [s[i]]: panics (index out of range) unless [0 <= i < len(s)]. *)
Definition byte_at (s : string) (i : Z) : outcome ascii :=
  if (i <? 0) || (len s <=? i) then Panicked
  else match String.get (Z.to_nat i) s with
       | Some c => Returned c
       | None => Panicked
       end.

(** [s[lo:hi]]: panics (slice bounds out of range) unless
    [0 <= lo <= hi <= len(s)]. *)
Definition slice (s : string) (lo hi : Z) : outcome string :=
  if (lo <? 0) || (hi <? lo) || (len s <? hi) then Panicked
  else Returned (take_bytes (Z.to_nat (hi - lo)) (drop_bytes (Z.to_nat lo) s)).

Definition digit (c : ascii) : option Z :=
  let n := Z.of_nat (nat_of_ascii c) in
  if (48 <=? n) && (n <=? 57) then Some (n - 48) else None.

Fixpoint digits (acc : Z) (s : string) : option Z :=
  match s with
  | EmptyString => Some acc
  | String c s' =>
      match digit c with
      | Some d => digits (acc * 10 + d) s'
      | None => None
      end
  end.

(** [strconv.Atoi(s)] on a 64-bit platform: an optional sign and decimal
    digits, within the range of [int]; [None] is the error. *)
Definition Atoi (s : string) : option Z :=
  let '(negative, body) :=
    match s with
    | String c rest =>
        if Ascii.eqb c "-" then (true, rest)
        else if Ascii.eqb c "+" then (false, rest)
        else (false, s)
    | EmptyString => (false, s)
    end in
  if String.eqb body EmptyString then None
  else match digits 0 body with
       | None => None
       | Some n =>
           let v := if negative then - n else n in
           if (- 2 ^ 63 <=? v) && (v <=? 2 ^ 63 - 1) then Some v else None
       end.

End gotext.

(** ** Package observability: metrics (metrics.go) *)
Module metrics.
Import gostring gotext.

Definition is_delimiter (c : ascii) : bool :=
  Ascii.eqb c "/" || Ascii.eqb c ":" || Ascii.eqb c "?".

(** The loop of [extractHost]: from index [i], for [steps] bytes, the index
    of the first [/], [:] or [?]; the length of the URL when there is none. *)
Fixpoint host_end (urlStr : string) (i : Z) (steps : nat) : outcome Z :=
  match steps with
  | O => Returned (len urlStr)
  | S steps' =>
      c ← byte_at urlStr i;
      if is_delimiter c then Returned i else host_end urlStr (i + 1) steps'
  end.

(** [extractHost]. *)
Definition extractHost (urlStr : string) : outcome string :=
  if String.eqb urlStr EmptyString then Returned "unknown"%string
  else
    let idx := Index urlStr "://" in
    let start := if negb (idx =? -1) then idx + 3 else 0 in
    end_ ← host_end urlStr start (Z.to_nat (len urlStr - start));
    if start >=? end_ then Returned "unknown"%string
    else
      host ← slice urlStr start end_;
      if len host >? 100 then Returned "other"%string
      else Returned host.

(** [ClassifyNetworkError]; [None] is the nil error. *)
Definition ClassifyNetworkError (err : option string) : string :=
  match err with
  | None => "none"
  | Some errStr =>
      if Contains errStr "timeout" then "timeout"
      else if Contains errStr "connection refused" then "connection_refused"
      else if Contains errStr "no such host" || Contains errStr "DNS" then "dns_failure"
      else if Contains errStr "certificate" || Contains errStr "x509" then "tls_error"
      else if Contains errStr "reset by peer" then "connection_reset"
      else if Contains errStr "broken pipe" then "broken_pipe"
      else if Contains errStr "EOF" then "unexpected_eof"
      else "other"
  end.

(** The fields of [Metrics]. *)
Inductive Instrument : Type :=
| HTTPRequestDuration | HTTPRequestCount | HTTPActiveRequests
| FetchDuration | FetchCount | FetchErrors | FetchResponseSize | FetchBytesTotal
| ContentProcessingDuration | ContentSizeRatio | HTMLToMarkdownCount
| RobotsCheckCount | RobotsBlockedCount
| MCPRequestDuration | MCPToolCallCount | MCPSessionCount | MCPErrorCount
| CacheHits | CacheMisses | CacheEvictions | CacheSize
| RateLimitHits | ConcurrentRequests
| FetchByDomain | RobotsViolations | NetworkErrors.

(** An attribute value: [attribute.String] or [attribute.Bool]. *)
Inductive AttrValue : Type :=
| AString (s : string)
| ABool (b : bool).

(** What is added to a counter or recorded in a histogram.  Floating point
    values are kept as the integers they are computed from: the seconds of
    a duration in nanoseconds, the conversion of an integer, a quotient. *)
Inductive Value : Type :=
| Int (n : Z)
| Seconds (nanoseconds : Z)
| Float64 (n : Z)
| Quotient (numerator denominator : Z).

Record Measurement : Type := {
  instrument : Instrument;
  value : Value;
  attrs : list (string * AttrValue)
}.

Definition measure (i : Instrument) (v : Value) (a : list (string * AttrValue))
  : Measurement := {| instrument := i; value := v; attrs := a |}.

(** The methods of [Metrics], with their arguments. *)
Inductive Call : Type :=
| RecordHTTPRequest (method path statusCode : string) (duration : Z)
| RecordHTTPActiveRequestsChange (delta : Z)
| RecordFetchOperation (url result : string) (duration : Z)
| RecordContentProcessing (contentType : string) (duration : Z)
| RecordRobotsCheck (url result : string)
| RecordFetchResponseSize (url : string) (sizeBytes : Z)
| RecordContentSizeRatio (originalSize processedSize : Z)
| RecordHTMLToMarkdownConversion (success : bool)
| RecordRobotsBlocked (url : string)
| RecordMCPRequest (method : string) (duration : Z) (success : bool)
| RecordMCPToolCall (toolName : string)
| RecordMCPSessionChange (delta : Z)
| RecordCacheHit (cacheType : string)
| RecordCacheMiss (cacheType : string)
| RecordCacheEviction (cacheType : string) (count : Z)
| RecordCacheSizeChange (delta : Z)
| RecordRateLimitHit (limitType : string)
| RecordConcurrentRequestsChange (delta : Z)
| RecordDomainFetch (url : string)
| RecordRobotsViolation (url : string)
| RecordNetworkError (url errorType : string).

(** What a method of a non-nil [Metrics] adds and records, in order. *)
Definition run (call : Call) : outcome (list Measurement) :=
  match call with
  | RecordHTTPRequest method path statusCode duration =>
      let attrs := ("method"%string, AString method) :: ("path"%string, AString path)
                   :: ("status_code"%string, AString statusCode) :: nil in
      mret (measure HTTPRequestDuration (Seconds duration) attrs
            :: measure HTTPRequestCount (Int 1) attrs :: nil)
  | RecordHTTPActiveRequestsChange delta =>
      mret (measure HTTPActiveRequests (Int delta) nil :: nil)
  | RecordFetchOperation url result duration =>
      host ← extractHost url;
      let attrs := ("url_host"%string, AString host)
                   :: ("result"%string, AString result) :: nil in
      mret (measure FetchDuration (Seconds duration) attrs
            :: measure FetchCount (Int 1) attrs
            :: (if String.eqb result "error"
                then measure FetchErrors (Int 1) attrs :: nil else nil))
  | RecordContentProcessing contentType duration =>
      let attrs := ("content_type"%string, AString contentType) :: nil in
      mret (measure ContentProcessingDuration (Seconds duration) attrs :: nil)
  | RecordRobotsCheck url result =>
      host ← extractHost url;
      let attrs := ("url_host"%string, AString host)
                   :: ("result"%string, AString result) :: nil in
      mret (measure RobotsCheckCount (Int 1) attrs :: nil)
  | RecordFetchResponseSize url sizeBytes =>
      host ← extractHost url;
      let attrs := ("url_host"%string, AString host) :: nil in
      mret (measure FetchResponseSize (Float64 sizeBytes) attrs
            :: measure FetchBytesTotal (Int sizeBytes) attrs :: nil)
  | RecordContentSizeRatio originalSize processedSize =>
      if originalSize >? 0
      then mret (measure ContentSizeRatio (Quotient processedSize originalSize) nil :: nil)
      else mret nil
  | RecordHTMLToMarkdownConversion success =>
      let attrs := ("success"%string, ABool success) :: nil in
      mret (measure HTMLToMarkdownCount (Int 1) attrs :: nil)
  | RecordRobotsBlocked url =>
      host ← extractHost url;
      let attrs := ("url_host"%string, AString host) :: nil in
      mret (measure RobotsBlockedCount (Int 1) attrs :: nil)
  | RecordMCPRequest method duration success =>
      let attrs := ("method"%string, AString method)
                   :: ("success"%string, ABool success) :: nil in
      mret (measure MCPRequestDuration (Seconds duration) attrs
            :: (if negb success then measure MCPErrorCount (Int 1) attrs :: nil else nil))
  | RecordMCPToolCall toolName =>
      let attrs := ("tool"%string, AString toolName) :: nil in
      mret (measure MCPToolCallCount (Int 1) attrs :: nil)
  | RecordMCPSessionChange delta =>
      mret (measure MCPSessionCount (Int delta) nil :: nil)
  | RecordCacheHit cacheType =>
      let attrs := ("cache_type"%string, AString cacheType) :: nil in
      mret (measure CacheHits (Int 1) attrs :: nil)
  | RecordCacheMiss cacheType =>
      let attrs := ("cache_type"%string, AString cacheType) :: nil in
      mret (measure CacheMisses (Int 1) attrs :: nil)
  | RecordCacheEviction cacheType count =>
      let attrs := ("cache_type"%string, AString cacheType) :: nil in
      mret (measure CacheEvictions (Int count) attrs :: nil)
  | RecordCacheSizeChange delta =>
      mret (measure CacheSize (Int delta) nil :: nil)
  | RecordRateLimitHit limitType =>
      let attrs := ("limit_type"%string, AString limitType) :: nil in
      mret (measure RateLimitHits (Int 1) attrs :: nil)
  | RecordConcurrentRequestsChange delta =>
      mret (measure ConcurrentRequests (Int delta) nil :: nil)
  | RecordDomainFetch url =>
      domain ← extractHost url;
      let attrs := ("domain"%string, AString domain) :: nil in
      mret (measure FetchByDomain (Int 1) attrs :: nil)
  | RecordRobotsViolation url =>
      domain ← extractHost url;
      let attrs := ("domain"%string, AString domain) :: nil in
      host ← extractHost url;
      let attrs' := ("url_host"%string, AString host) :: nil in
      mret (measure RobotsViolations (Int 1) attrs
            :: measure RobotsBlockedCount (Int 1) attrs' :: nil)
  | RecordNetworkError url errorType =>
      domain ← extractHost url;
      let attrs := ("domain"%string, AString domain)
                   :: ("error_type"%string, AString errorType) :: nil in
      mret (measure NetworkErrors (Int 1) attrs :: nil)
  end.

End metrics.

(** ** Reading a host label *)

(** The bytes of a string up to its first [/], [:] or [?]. *)
Fixpoint until_delimiter (s : string) : string :=
  match s with
  | EmptyString => EmptyString
  | String c s' =>
      if metrics.is_delimiter c then EmptyString else String c (until_delimiter s')
  end.

(** No byte of the string is [/], [:] or [?]. *)
Fixpoint delimiter_free (s : string) : bool :=
  match s with
  | EmptyString => true
  | String c s' => negb (metrics.is_delimiter c) && delimiter_free s'
  end.

(** No byte of the string is [:]. *)
Fixpoint colon_free (s : string) : bool :=
  match s with
  | EmptyString => true
  | String c s' => negb (Ascii.eqb c ":") && colon_free s'
  end.

(** The string is empty or begins with [/], [:] or [?]. *)
Definition at_delimiter (s : string) : bool :=
  match s with
  | EmptyString => true
  | String c _ => metrics.is_delimiter c
  end.

(** The values of the host attributes of a measurement, [url_host] and
    [domain]. *)
Definition host_labels (m : metrics.Measurement) : list string :=
  omap (fun kv => match kv with
                  | (k, metrics.AString v) =>
                      if String.eqb k "url_host" || String.eqb k "domain"
                      then Some v else None
                  | _ => None
                  end) (metrics.attrs m).

(** ** Package config (pkg/config/config.go) *)
Module config.
Import gotext.

Definition ServerName : string := "fetch-server".
Definition ServerVersion : string := "1.0.0".
Definition DefaultUA : string := "Mozilla/5.0 (compatible; MCPFetchBot/1.0)".

Definition TransportSSE : string := "sse".
Definition TransportStreamableHTTP : string := "streamable-http".

Record Config : Type := {
  Port : Z;
  UserAgent : string;
  IgnoreRobots : bool;
  ProxyURL : string;
  Transport : string;
  EnableOTelMetrics : bool;
  EnableOTelTracing : bool;
  OTelServiceName : string;
  OTelServiceVersion : string;
  OTelEndpoint : string;
  EnablePrometheus : bool;
  MetricsPort : Z
}.

(** The command line as [flag.Parse] reads it: for each flag the value
    given, [None] when the flag is absent and its default applies. *)
Record CommandLine : Type := {
  flag_transport : option string;
  flag_port : option Z;
  flag_user_agent : option string;
  flag_ignore_robots_txt : option bool;
  flag_proxy_url : option string;
  flag_enable_otel_metrics : option bool;
  flag_enable_otel_tracing : option bool;
  flag_otel_service_name : option string;
  flag_otel_service_version : option string;
  flag_otel_endpoint : option string;
  flag_enable_prometheus : option bool;
  flag_metrics_port : option Z
}.

(** What [parseConfig] leaves behind: the fields of [*config] it sets and
    the package variables [transport] and [port]. *)
Record Parsed : Type := {
  transport : string;
  port : Z;
  userAgent : string;
  ignoreRobots : bool;
  proxyURL : string;
  enableOTelMetrics : bool;
  enableOTelTracing : bool;
  otelServiceName : string;
  otelServiceVersion : string;
  otelEndpoint : string;
  enablePrometheus : bool;
  metricsPort : Z
}.

(** [if v, ok := os.LookupEnv(key); ok { x = f(v) }]. *)
Definition override {A : Type} (env : gmap string string) (key : string)
  (f : string -> option A) (x : A) : A :=
  match env !! key with
  | Some v => match f v with Some y => y | None => x end
  | None => x
  end.

(** [parseConfig]: the flags with their defaults, then the overrides of
    the environment. *)
Definition parseConfig (cl : CommandLine) (env : gmap string string) : Parsed :=
  let transport := default "streamable-http"%string (flag_transport cl) in
  let port := default 8080 (flag_port cl) in
  let userAgent := default EmptyString (flag_user_agent cl) in
  let ignoreRobots := default false (flag_ignore_robots_txt cl) in
  let proxyURL := default EmptyString (flag_proxy_url cl) in
  let enableOTelMetrics := default false (flag_enable_otel_metrics cl) in
  let enableOTelTracing := default false (flag_enable_otel_tracing cl) in
  let otelServiceName := default EmptyString (flag_otel_service_name cl) in
  let otelServiceVersion := default EmptyString (flag_otel_service_version cl) in
  let otelEndpoint := default EmptyString (flag_otel_endpoint cl) in
  let enablePrometheus := default false (flag_enable_prometheus cl) in
  let metricsPort := default 0 (flag_metrics_port cl) in
  let transport := override env "TRANSPORT" Some transport in
  let port := override env "MCP_PORT" Atoi port in
  let enableOTelMetrics :=
    override env "ENABLE_OTEL_METRICS" (fun v => Some (String.eqb v "true"))
      enableOTelMetrics in
  let enableOTelTracing :=
    override env "ENABLE_OTEL_TRACING" (fun v => Some (String.eqb v "true"))
      enableOTelTracing in
  let otelServiceName := override env "OTEL_SERVICE_NAME" Some otelServiceName in
  let otelServiceVersion :=
    override env "OTEL_SERVICE_VERSION" Some otelServiceVersion in
  let otelEndpoint := override env "OTEL_EXPORTER_OTLP_ENDPOINT" Some otelEndpoint in
  let enablePrometheus :=
    override env "ENABLE_PROMETHEUS" (fun v => Some (String.eqb v "true"))
      enablePrometheus in
  let metricsPort := override env "METRICS_PORT" Atoi metricsPort in
  {| transport := transport; port := port; userAgent := userAgent;
     ignoreRobots := ignoreRobots; proxyURL := proxyURL;
     enableOTelMetrics := enableOTelMetrics; enableOTelTracing := enableOTelTracing;
     otelServiceName := otelServiceName; otelServiceVersion := otelServiceVersion;
     otelEndpoint := otelEndpoint; enablePrometheus := enablePrometheus;
     metricsPort := metricsPort |}.

(** [ParseFlags]. *)
Definition ParseFlags (cl : CommandLine) (env : gmap string string) : Config :=
  let p := parseConfig cl env in
  let Port := port p in
  let Transport := transport p in
  let UserAgent :=
    if String.eqb (userAgent p) EmptyString then DefaultUA else userAgent p in
  let OTelServiceName :=
    if String.eqb (otelServiceName p) EmptyString then ServerName
    else otelServiceName p in
  let OTelServiceVersion :=
    if String.eqb (otelServiceVersion p) EmptyString then ServerVersion
    else otelServiceVersion p in
  let MetricsPort := if metricsPort p =? 0 then Port else metricsPort p in
  {| Port := Port; UserAgent := UserAgent; IgnoreRobots := ignoreRobots p;
     ProxyURL := proxyURL p; Transport := Transport;
     EnableOTelMetrics := enableOTelMetrics p;
     EnableOTelTracing := enableOTelTracing p;
     OTelServiceName := OTelServiceName; OTelServiceVersion := OTelServiceVersion;
     OTelEndpoint := otelEndpoint p; EnablePrometheus := enablePrometheus p;
     MetricsPort := MetricsPort |}.

(** A command line without flags. *)
Definition no_flags : CommandLine := {|
  flag_transport := None; flag_port := None; flag_user_agent := None;
  flag_ignore_robots_txt := None; flag_proxy_url := None;
  flag_enable_otel_metrics := None; flag_enable_otel_tracing := None;
  flag_otel_service_name := None; flag_otel_service_version := None;
  flag_otel_endpoint := None; flag_enable_prometheus := None;
  flag_metrics_port := None
|}.

End config.

(** ** Package observability: telemetry setup (pkg/observability/otel.go) *)
Module otel.

Record ObservabilityConfig : Type := {
  ServiceName : string;
  ServiceVersion : string;
  Endpoint : string;
  EnableMetrics : bool;
  EnableTracing : bool
}.

(** [NewObservabilityConfig]. *)
Definition NewObservabilityConfig (cfg : config.Config) : ObservabilityConfig := {|
  ServiceName := config.OTelServiceName cfg;
  ServiceVersion := config.OTelServiceVersion cfg;
  Endpoint := config.OTelEndpoint cfg;
  EnableMetrics := config.EnableOTelMetrics cfg;
  EnableTracing := config.EnableOTelTracing cfg
|}.

Inductive Signal : Type := Traces | Metrics.

(** A provider of the OpenTelemetry SDK, known by its signal and the
    endpoint its exporter sends to. *)
Record Provider : Type := { signal : Signal; exporterEndpoint : string }.

(** The calls into the OpenTelemetry SDK whose outcome depends on the
    outside: the error, if any, of [resource.New], of the creation of an
    OTLP exporter for an endpoint, and of the shutdown of a provider. *)
Record SDK : Type := {
  resource_New : string -> string -> option string;
  exporter_New : Signal -> string -> option string;
  provider_Shutdown : Provider -> option string
}.

(** [Telemetry]; a shutdown function is known by the provider it closes
    over. *)
Record Telemetry : Type := {
  TracerProvider : option Provider;
  MeterProvider : option Provider;
  shutdownFuncs : list Provider
}.

(** The global state of package otel that [Setup] writes. *)
Record Globals : Type := {
  globalTracerProvider : option Provider;
  globalMeterProvider : option Provider;
  traceContextPropagation : bool
}.

Definition no_globals : Globals := {|
  globalTracerProvider := None; globalMeterProvider := None;
  traceContextPropagation := false
|}.

(** [setupTracing] and [setupMetrics]: the provider, or the error. *)
Definition setupTracing (sdk : SDK) (endpoint : string) : Provider + string :=
  let endpoint :=
    if String.eqb endpoint EmptyString then "localhost:4318"%string else endpoint in
  match exporter_New sdk Traces endpoint with
  | Some err => inr ("failed to create trace exporter: " +:+ err)
  | None => inl {| signal := Traces; exporterEndpoint := endpoint |}
  end.

Definition setupMetrics (sdk : SDK) (endpoint : string) : Provider + string :=
  let endpoint :=
    if String.eqb endpoint EmptyString then "localhost:4318"%string else endpoint in
  match exporter_New sdk Metrics endpoint with
  | Some err => inr ("failed to create metric exporter: " +:+ err)
  | None => inl {| signal := Metrics; exporterEndpoint := endpoint |}
  end.

(** [Setup]: the telemetry or the error, and the globals as it leaves
    them. *)
Definition Setup (sdk : SDK) (obsConfig : ObservabilityConfig) (g : Globals)
  : (Telemetry + string) * Globals :=
  let tel := {| TracerProvider := None; MeterProvider := None; shutdownFuncs := nil |} in
  match resource_New sdk (ServiceName obsConfig) (ServiceVersion obsConfig) with
  | Some err => (inr ("failed to create resource: " +:+ err), g)
  | None =>
      let traced :=
        if EnableTracing obsConfig then
          match setupTracing sdk (Endpoint obsConfig) with
          | inr err => inr ("failed to setup tracing: " +:+ err)
          | inl tracerProvider =>
              inl ({| TracerProvider := Some tracerProvider;
                      MeterProvider := MeterProvider tel;
                      shutdownFuncs := shutdownFuncs tel ++ tracerProvider :: nil |},
                   {| globalTracerProvider := Some tracerProvider;
                      globalMeterProvider := globalMeterProvider g;
                      traceContextPropagation := true |})
          end
        else inl (tel, g) in
      match traced with
      | inr err => (inr err, g)
      | inl (tel, g) =>
          if EnableMetrics obsConfig then
            match setupMetrics sdk (Endpoint obsConfig) with
            | inr err => (inr ("failed to setup metrics: " +:+ err), g)
            | inl meterProvider =>
                (inl {| TracerProvider := TracerProvider tel;
                        MeterProvider := Some meterProvider;
                        shutdownFuncs := shutdownFuncs tel ++ meterProvider :: nil |},
                 {| globalTracerProvider := globalTracerProvider g;
                    globalMeterProvider := Some meterProvider;
                    traceContextPropagation := traceContextPropagation g |})
            end
          else (inl tel, g)
      end
  end.

(** [Telemetry.Shutdown]: the shutdown functions called, in order, each
    with its error, and the error returned. *)
Fixpoint shutdown_all (sdk : SDK) (funcs : list Provider)
  : list (Provider * option string) :=
  match funcs with
  | nil => nil
  | shutdown :: rest =>
      (shutdown, provider_Shutdown sdk shutdown) :: shutdown_all sdk rest
  end.

Definition Shutdown (sdk : SDK) (t : Telemetry)
  : list (Provider * option string) * option string :=
  (shutdown_all sdk (shutdownFuncs t), None).

(** The instruments [NewMetrics] creates, in order, by name. *)
Definition instrument_names : list string :=
  ("http_request_duration_seconds" :: "http_requests_total" :: "http_active_requests"
   :: "fetch_duration_seconds" :: "fetch_operations_total" :: "fetch_errors_total"
   :: "content_processing_duration_seconds" :: "robots_check_total"
   :: "fetch_response_size_bytes" :: "fetch_bytes_total" :: "content_size_ratio"
   :: "html_to_markdown_conversions_total" :: "robots_blocked_total"
   :: "mcp_request_duration_seconds" :: "mcp_tool_calls_total"
   :: "mcp_active_sessions" :: "mcp_errors_total" :: "cache_hits_total"
   :: "cache_misses_total" :: "cache_evictions_total" :: "cache_size_entries"
   :: "rate_limit_hits_total" :: "concurrent_requests" :: "fetch_requests_by_domain"
   :: "robots_txt_violations_total" :: "network_errors_by_type" :: nil)%string.

(** The chain of creations of [NewMetrics]: the error of the first
    instrument the meter fails to create. *)
Fixpoint create_instruments (meter : string -> option string) (names : list string)
  : option string :=
  match names with
  | nil => None
  | name :: rest =>
      match meter name with
      | Some err => Some ("failed to create " +:+ name +:+ " metric: " +:+ err)
      | None => create_instruments meter rest
      end
  end.

(** [NewMetrics]: [None] when the metrics are returned, the error
    otherwise. *)
Definition NewMetrics (meter : string -> option string) : option string :=
  create_instruments meter instrument_names.

End otel.

(** ** Package observability: spans (pkg/observability/tracing.go) *)
Module tracing.

Definition SpanHTTPRequest : string := "http.request".
Definition SpanFetchURL : string := "fetch.url".
Definition SpanProcessContent : string := "content.process".
Definition SpanCheckRobots : string := "robots.check".

Inductive Code : Type := Unset | Error | Ok.

Inductive SpanKind : Type := Internal | Server | Client.

Inductive Attr : Type :=
| AttrString (s : string)
| AttrInt (n : Z)
| AttrBool (b : bool).

(** A span as the helper leaves it: what [SetAttributes], [RecordError],
    [SetStatus] and [End] were called with, in order. *)
Record Span : Type := {
  name : string;
  kind : SpanKind;
  attributes : list (string * Attr);
  recordedErrors : list string;
  statuses : list (Code * string);
  ends : nat
}.

Definition SetAttributes (span : Span) (a : list (string * Attr)) : Span :=
  {| name := name span; kind := kind span; attributes := attributes span ++ a;
     recordedErrors := recordedErrors span; statuses := statuses span;
     ends := ends span |}.

Definition RecordError (span : Span) (err : string) : Span :=
  {| name := name span; kind := kind span; attributes := attributes span;
     recordedErrors := recordedErrors span ++ err :: nil; statuses := statuses span;
     ends := ends span |}.

Definition SetStatus (span : Span) (code : Code) (description : string) : Span :=
  {| name := name span; kind := kind span; attributes := attributes span;
     recordedErrors := recordedErrors span;
     statuses := statuses span ++ (code, description) :: nil; ends := ends span |}.

Definition End_ (span : Span) : Span :=
  {| name := name span; kind := kind span; attributes := attributes span;
     recordedErrors := recordedErrors span; statuses := statuses span;
     ends := S (ends span) |}.

Definition start (name : string) (kind : SpanKind) (a : list (string * Attr)) : Span :=
  {| name := name; kind := kind; attributes := a; recordedErrors := nil;
     statuses := nil; ends := 0 |}.

(** [extractHostFromURL]; [url_Host] gives the host [url.Parse] finds, and
    [None] when it fails. *)
Definition extractHostFromURL (url_Host : string -> option string) (urlStr : string)
  : string :=
  match url_Host urlStr with
  | Some host => if negb (String.eqb host EmptyString) then host else "unknown"
  | None => "unknown"
  end.

(** [StartFetchSpan]. *)
Definition StartFetchSpan (url_Host : string -> option string) (fetchURL : string)
  : Span :=
  start SpanFetchURL Client
    (("fetch.url"%string, AttrString fetchURL)
     :: ("fetch.host"%string, AttrString (extractHostFromURL url_Host fetchURL))
     :: nil).

(** [StartProcessContentSpan]. *)
Definition StartProcessContentSpan (contentType : string) : Span :=
  start SpanProcessContent Internal
    (("content.type"%string, AttrString contentType) :: nil).

(** [StartRobotsCheckSpan]. *)
Definition StartRobotsCheckSpan (url_Host : string -> option string) (checkURL : string)
  : Span :=
  start SpanCheckRobots Internal
    (("robots.check_url"%string, AttrString checkURL)
     :: ("robots.host"%string, AttrString (extractHostFromURL url_Host checkURL))
     :: nil).

(** [FinishHTTPSpan]. *)
Definition FinishHTTPSpan (span : Span) (statusCode : Z) (err : option string) : Span :=
  let span := SetAttributes span (("http.status_code"%string, AttrInt statusCode) :: nil) in
  let span :=
    match err with
    | Some e => SetStatus (RecordError span e) Error e
    | None =>
        if statusCode >=? 400 then SetStatus span Error "HTTP error"
        else SetStatus span Ok EmptyString
    end in
  End_ span.

(** [FinishFetchSpan]. *)
Definition FinishFetchSpan (span : Span) (statusCode contentLength : Z)
  (err : option string) : Span :=
  let span :=
    if statusCode >? 0
    then SetAttributes span (("http.status_code"%string, AttrInt statusCode) :: nil)
    else span in
  let span :=
    if contentLength >? 0
    then SetAttributes span (("content.length"%string, AttrInt contentLength) :: nil)
    else span in
  let span :=
    match err with
    | Some e => SetStatus (RecordError span e) Error e
    | None =>
        if statusCode >=? 400 then SetStatus span Error "Fetch failed"
        else SetStatus span Ok "Fetch successful"
    end in
  End_ span.

(** [FinishProcessContentSpan]. *)
Definition FinishProcessContentSpan (span : Span) (inputLength outputLength : Z)
  (err : option string) : Span :=
  let span :=
    SetAttributes span
      (("content.input_length"%string, AttrInt inputLength)
       :: ("content.output_length"%string, AttrInt outputLength) :: nil) in
  let span :=
    match err with
    | Some e => SetStatus (RecordError span e) Error e
    | None => SetStatus span Ok "Content processed successfully"
    end in
  End_ span.

(** [FinishRobotsCheckSpan]. *)
Definition FinishRobotsCheckSpan (span : Span) (allowed : bool) (err : option string)
  : Span :=
  let span := SetAttributes span (("robots.allowed"%string, AttrBool allowed) :: nil) in
  let span :=
    match err with
    | Some e => SetStatus (RecordError span e) Error e
    | None => SetStatus span Ok "Robots check completed"
    end in
  End_ span.

End tracing.

(** ** Package server *)
Module server.
Import gostring.

(** [FetchParams]. *)
Record FetchParams : Type := {
  URL : string;
  MaxLength : option Z;
  StartIndex : option Z;
  Raw : bool
}.

(** A transport of the HTTP client; [otelhttp.NewTransport] wraps the
    default transport when it is given nil. *)
Inductive RoundTripper : Type :=
| DefaultTransport
| ProxyTransport (proxyURL : string)
| OTelTransport (base : RoundTripper).

(** [otelhttp.NewTransport(base)]. *)
Definition NewTransport (base : option RoundTripper) : RoundTripper :=
  OTelTransport (match base with Some t => t | None => DefaultTransport end).

(** The settings of the [http.Client] the server builds; the timeout is in
    seconds, and a [Transport] of [None] is the nil transport. *)
Record ClientSettings : Type := {
  Timeout : Z;
  Transport : option RoundTripper
}.

(** The MCP server: its implementation name and version, and the names of
    the tools registered. *)
Record MCPServer : Type := {
  implName : string;
  implVersion : string;
  tools : list string
}.

(** [FetchServer]; [metrics] tells whether the metrics pointer is set,
    [traceHelper] holds the service name of the helper when there is one,
    and [client] are the settings of the HTTP client handed to the fetcher
    and to the robots checker. *)
Record FetchServer : Type := {
  config : config.Config;
  fetcher : fetcher.HTTPFetcher;
  mcpServer : MCPServer;
  telemetry : option otel.Telemetry;
  metrics : bool;
  traceHelper : option string;
  client : ClientSettings
}.

(** What the construction of a server meets outside the repository: the
    OpenTelemetry SDK and the meter that creates instruments, whether
    [url.Parse] accepts a proxy URL, the network the HTTP client reaches,
    the libraries of the content processor, and the two times to live of
    the robots checker. *)
Record Platform : Type := {
  sdk : otel.SDK;
  meter : string -> option string;
  url_Parse_fails : string -> bool;
  network : nethttp.Client;
  libraries : processor.Libraries;
  policyTTL : Z;
  failureTTL : Z
}.

(** [NewFetchServer]: the server, and the globals of package otel as the
    setup leaves them. *)
Definition NewFetchServer (p : Platform) (cfg : config.Config) (g : otel.Globals)
  : FetchServer * otel.Globals :=
  let '(telemetry, metrics, traceHelper, g) :=
    if config.EnableOTelMetrics cfg || config.EnableOTelTracing cfg
       || config.EnablePrometheus cfg
    then
      let obsConfig := otel.NewObservabilityConfig cfg in
      match otel.Setup (sdk p) obsConfig g with
      | (inr _, g) => (None, false, None, g)
      | (inl telemetry, g) =>
          let metrics :=
            match otel.MeterProvider telemetry with
            | Some _ =>
                match otel.NewMetrics (meter p) with
                | Some _ => false
                | None => true
                end
            | None => false
            end in
          let traceHelper :=
            match otel.TracerProvider telemetry with
            | Some _ => Some (otel.ServiceName obsConfig)
            | None => None
            end in
          (Some telemetry, metrics, traceHelper, g)
      end
    else (None, false, None, g) in
  let transport : option RoundTripper := None in
  let transport :=
    match traceHelper with
    | Some _ => Some (NewTransport transport)
    | None => transport
    end in
  let transport :=
    if negb (String.eqb (config.ProxyURL cfg) EmptyString) then
      if negb (url_Parse_fails p (config.ProxyURL cfg)) then
        match traceHelper with
        | Some _ => Some (NewTransport (Some (ProxyTransport (config.ProxyURL cfg))))
        | None => Some (ProxyTransport (config.ProxyURL cfg))
        end
      else transport
    else transport in
  let robotsChecker := {|
    robots.userAgent := config.UserAgent cfg;
    robots.ignoreRobots := config.IgnoreRobots cfg;
    robots.httpClient := network p;
    robots.policyTTL := policyTTL p;
    robots.failureTTL := failureTTL p
  |} in
  let httpFetcher := {|
    fetcher.httpClient := network p;
    fetcher.robotsChecker := robotsChecker;
    fetcher.processor := libraries p;
    fetcher.userAgent := config.UserAgent cfg;
    fetcher.metrics := metrics
  |} in
  ({| config := cfg; fetcher := httpFetcher;
      mcpServer := {| implName := config.ServerName;
                      implVersion := config.ServerVersion;
                      tools := "fetch"%string :: nil |};
      telemetry := telemetry; metrics := metrics; traceHelper := traceHelper;
      client := {| Timeout := 30; Transport := transport |} |}, g).

(** What the server does besides running the pipeline, in order. *)
Inductive ServerEvent : Type :=
| SpanStarted (span : tracing.Span)
| SpanEnded
| Recorded (call : metrics.Call)
| SessionLogged (endpointURI : string)
| Listening (addr : string) (routes : list string).

(** The state a tool call runs in: the world of the pipeline and the
    events of the server. *)
Record ServerWorld : Type := {
  pipeline : World;
  events : list ServerEvent
}.

(** [mcp.CallToolResult] with its one text content. *)
Record CallToolResult : Type := { Text : string }.

(** [if fs.metrics != nil { fs.metrics.<call> }]. *)
Definition recorded (fs : FetchServer) (calls : list metrics.Call) : list ServerEvent :=
  if metrics fs then map Recorded calls else nil.

(** [handleFetchTool].  [url_Host] is [url.Parse] as the span helper uses
    it and [duration] the time [time.Since] measures; the deferred calls
    run last, also when the fetch panics. *)
Definition handleFetchTool (url_Host : string -> option string) (duration : Z)
  (fs : FetchServer) (params : FetchParams) (sw : ServerWorld)
  : outcome (option CallToolResult * fetcher.error) * ServerWorld :=
  let spanStart :=
    match traceHelper fs with
    | Some _ => SpanStarted (tracing.StartFetchSpan url_Host (URL params)) :: nil
    | None => nil
    end in
  let spanEnd :=
    match traceHelper fs with
    | Some _ => SpanEnded :: nil
    | None => nil
    end in
  let before :=
    recorded fs (metrics.RecordMCPToolCall "fetch"
                 :: metrics.RecordConcurrentRequestsChange 1 :: nil) in
  let deferred :=
    recorded fs (metrics.RecordConcurrentRequestsChange (-1) :: nil) ++ spanEnd in
  let fetchReq := {|
    fetcher.ReqURL := URL params;
    fetcher.MaxLength := MaxLength params;
    fetcher.StartIndex := StartIndex params;
    fetcher.Raw := Raw params
  |} in
  let '(fetched, w) := fetcher.FetchURL (fetcher fs) fetchReq (pipeline sw) in
  match fetched with
  | Panicked =>
      (Panicked,
       {| pipeline := w; events := events sw ++ spanStart ++ before ++ deferred |})
  | Returned (content, err) =>
      let result := match err with Some _ => "error" | None => "success" end in
      let after :=
        recorded fs
          (metrics.RecordFetchOperation (URL params) result duration
           :: metrics.RecordMCPRequest "tools/call" duration
                (match err with Some _ => false | None => true end)
           :: match err with
              | None => metrics.RecordFetchResponseSize (URL params) (len content) :: nil
              | Some _ => nil
              end) in
      (Returned (match err with
                 | Some e => (None, Some e)
                 | None => (Some {| Text := content |}, None)
                 end),
       {| pipeline := w;
          events := events sw ++ spanStart ++ before ++ after ++ deferred |})
  end.

(** [handleInitialized]: the session metric and the endpoint event; the
    error of [Session.Log] is only logged. *)
Definition endpointURI (fs : FetchServer) : string :=
  let transport := config.Transport (config fs) in
  let port := itoa (config.Port (config fs)) in
  if String.eqb transport config.TransportSSE
  then "http://localhost:" +:+ port +:+ "/messages"
  else if String.eqb transport config.TransportStreamableHTTP
  then "http://localhost:" +:+ port +:+ "/mcp"
  else "http://localhost:" +:+ port +:+ "/messages".

Definition handleInitialized (fs : FetchServer) (sw : ServerWorld) : ServerWorld :=
  {| pipeline := pipeline sw;
     events := events sw
               ++ recorded fs (metrics.RecordMCPSessionChange 1 :: nil)
               ++ SessionLogged (endpointURI fs) :: nil |}.

(** The routes of the metrics endpoint. *)
Definition metrics_routes (fs : FetchServer) : list string :=
  if config.EnablePrometheus (config fs)
     && match telemetry fs with Some _ => true | None => false end
  then "/metrics"%string :: nil else nil.

(** [startSSEServer] and [startStreamableHTTPServer]: the server listens
    and hands back the error [ListenAndServe] ends with. *)
Definition startSSEServer (serveError : string) (fs : FetchServer) (sw : ServerWorld)
  : fetcher.error * ServerWorld :=
  (Some serveError,
   {| pipeline := pipeline sw;
      events := events sw
                ++ Listening (":" +:+ itoa (config.Port (config fs)))
                     ("/sse"%string :: "/messages"%string :: metrics_routes fs)
                   :: nil |}).

Definition startStreamableHTTPServer (serveError : string) (fs : FetchServer)
  (sw : ServerWorld) : fetcher.error * ServerWorld :=
  (Some serveError,
   {| pipeline := pipeline sw;
      events := events sw
                ++ Listening (":" +:+ itoa (config.Port (config fs)))
                     ("/mcp"%string :: metrics_routes fs)
                   :: nil |}).

(** [Start]. *)
Definition Start (serveError : string) (fs : FetchServer) (sw : ServerWorld)
  : fetcher.error * ServerWorld :=
  let transport := config.Transport (config fs) in
  if String.eqb transport config.TransportSSE then startSSEServer serveError fs sw
  else if String.eqb transport config.TransportStreamableHTTP
  then startStreamableHTTPServer serveError fs sw
  else (Some ("unsupported transport type: " +:+ transport), sw).

(** [Shutdown]: the shutdown functions called and the error returned. *)
Definition Shutdown (p : Platform) (fs : FetchServer)
  : list (otel.Provider * option string) * option string :=
  match telemetry fs with
  | Some t => otel.Shutdown (sdk p) t
  | None => (nil, None)
  end.

End server.

(** ** Reading the events of the server *)

(** The changes of the concurrent requests gauge, in order. *)
Definition concurrent_changes (es : list server.ServerEvent) : list Z :=
  omap (fun e => match e with
                 | server.Recorded (metrics.RecordConcurrentRequestsChange delta) =>
                     Some delta
                 | _ => None
                 end) es.

(** The results given to [RecordFetchOperation], in order. *)
Definition fetch_operations (es : list server.ServerEvent) : list string :=
  omap (fun e => match e with
                 | server.Recorded (metrics.RecordFetchOperation _ result _) =>
                     Some result
                 | _ => None
                 end) es.

(** The sizes given to [RecordFetchResponseSize], in order. *)
Definition response_sizes (es : list server.ServerEvent) : list Z :=
  omap (fun e => match e with
                 | server.Recorded (metrics.RecordFetchResponseSize _ size) => Some size
                 | _ => None
                 end) es.

(** The number of spans started and not ended. *)
Fixpoint open_spans (es : list server.ServerEvent) : Z :=
  match es with
  | nil => 0
  | server.SpanStarted _ :: es' => 1 + open_spans es'
  | server.SpanEnded :: es' => open_spans es' - 1
  | _ :: es' => open_spans es'
  end.

(** The routes the server listens on, for each time it starts to listen. *)
Definition listened_routes (es : list server.ServerEvent) : list (list string) :=
  omap (fun e => match e with
                 | server.Listening _ routes => Some routes
                 | _ => None
                 end) es.

(** The request the handler hands to the pipeline. *)
Definition request_of (params : server.FetchParams) : fetcher.FetchRequest := {|
  fetcher.ReqURL := server.URL params;
  fetcher.MaxLength := server.MaxLength params;
  fetcher.StartIndex := server.StartIndex params;
  fetcher.Raw := server.Raw params
|}.

(** A server world with nothing done yet. *)
Definition fresh_server (w : World) : server.ServerWorld :=
  {| server.pipeline := w; server.events := nil |}.

(** An SDK and a platform in which nothing fails. *)
Definition sound_sdk : otel.SDK := {|
  otel.resource_New := fun _ _ => None;
  otel.exporter_New := fun _ _ => None;
  otel.provider_Shutdown := fun _ => None
|}.

Definition sound_platform : server.Platform := {|
  server.sdk := sound_sdk;
  server.meter := fun _ => None;
  server.url_Parse_fails := fun _ => false;
  server.network := scenario.client;
  server.libraries := scenario.libs;
  server.policyTTL := 3600;
  server.failureTTL := 300
|}.

(** The robots.txt fetches of a trace, by URL. *)
Definition robots_requests (t : list Event) : list string :=
  omap (fun e => match e with RobotsTxtRequest url => Some url | _ => None end) t.

(** ** A document without text *)
Module emptypage.
Import processor.

(** The libraries on documents such as [page]: the parser builds a tree of
    whatever it is given, readability returns an article and no error, with
    empty content when the document has no text to extract, and the
    conversion keeps the text between the tags. *)
Definition libs : Libraries := {|
  Node := string;
  html_Parse := fun s => inl s;
  readability_FromDocument := fun doc =>
    if String.eqb (scenario.strip_tags false doc) EmptyString
    then inl EmptyString
    else inl ("<div>" +:+ doc +:+ "</div>");
  htmltomarkdown_ConvertString := fun s => inl (scenario.strip_tags false s)
|}.

(** A well-formed document whose body is empty. *)
Definition page : string := "<html><body></body></html>".

End emptypage.

(** * Properties *)

Import processor.

(** ** Byte strings *)
Section gostring_facts.

Lemma len_nonneg (s : string) : 0 <= len s.
Proof. unfold len. lia. Qed.

Lemma append_String (c : ascii) (s t : string) :
  String c s +:+ t = String c (s +:+ t).
Proof. reflexivity. Qed.

Lemma length_append (s t : string) :
  String.length (s +:+ t) = (String.length s + String.length t)%nat.
Proof. induction s as [|c s IH]; simpl; [reflexivity | now rewrite IH]. Qed.

Lemma len_append (s t : string) : len (s +:+ t) = len s + len t.
Proof. unfold len. rewrite length_append. lia. Qed.

Lemma length_drop_bytes (n : nat) (s : string) :
  String.length (drop_bytes n s) = (String.length s - n)%nat.
Proof.
  revert s. induction n as [|n IH]; intros [|c s]; simpl; auto.
Qed.

Lemma length_take_bytes (n : nat) (s : string) :
  String.length (take_bytes n s) = Nat.min n (String.length s).
Proof.
  revert s. induction n as [|n IH]; intros [|c s]; simpl; auto.
Qed.

Lemma take_drop_bytes (n : nat) (s : string) :
  take_bytes n s +:+ drop_bytes n s = s.
Proof.
  revert s. induction n as [|n IH]; intros [|c s]; simpl; auto.
  now rewrite append_String, IH.
Qed.

Lemma drop_bytes_all (n : nat) (s : string) :
  (String.length s <= n)%nat -> drop_bytes n s = EmptyString.
Proof.
  revert s. induction n as [|n IH]; intros [|c s]; simpl; intros H; auto.
  - lia.
  - apply IH. lia.
Qed.

Lemma take_bytes_all (n : nat) (s : string) :
  (String.length s <= n)%nat -> take_bytes n s = s.
Proof.
  revert s. induction n as [|n IH]; intros [|c s]; simpl; intros H; auto.
  - lia.
  - f_equal. apply IH. lia.
Qed.

Lemma slice_from_in_range (s : string) (lo : Z) :
  0 <= lo <= len s -> slice_from s lo = Returned (drop_bytes (Z.to_nat lo) s).
Proof.
  intros H. unfold slice_from.
  destruct (Z.ltb_spec lo 0); [lia|].
  destruct (Z.ltb_spec (len s) lo); [lia|]. reflexivity.
Qed.

Lemma slice_to_in_range (s : string) (hi : Z) :
  0 <= hi <= len s -> slice_to s hi = Returned (take_bytes (Z.to_nat hi) s).
Proof.
  intros H. unfold slice_to.
  destruct (Z.ltb_spec hi 0); [lia|].
  destruct (Z.ltb_spec (len s) hi); [lia|]. reflexivity.
Qed.

Lemma slice_from_negative (s : string) (lo : Z) :
  lo < 0 -> slice_from s lo = Panicked.
Proof.
  intros H. unfold slice_from. destruct (Z.ltb_spec lo 0); [reflexivity | lia].
Qed.

End gostring_facts.

(** ** The paginator, [FormatContent] *)
Section paginator.

Lemma positive_nonneg (i : option Z) : positive i -> nonneg i.
Proof. destruct i; simpl; lia. Qed.

Lemma remaining_Some (content : string) (s : Z) :
  remaining content (Some s) = drop_bytes (Z.to_nat (Z.min s (len content))) content.
Proof. reflexivity. Qed.

(** What [FormatContent] computes on the requests of the data model. *)
Lemma FormatContent_nonneg (content : string) (startIndex maxLength : option Z) :
  nonneg startIndex -> nonneg maxLength ->
  FormatContent content startIndex maxLength =
  Returned (let rest := remaining content startIndex in
            match maxLength with
            | Some m =>
                if len rest >? m
                then take_bytes (Z.to_nat m) rest +:+ truncation_marker
                else rest
            | None => rest
            end).
Proof.
  intros Hs Hm. unfold FormatContent, remaining.
  pose proof (len_nonneg content) as Hl.
  set (start := match startIndex with Some i => i | None => 0 end).
  assert (Hstart : 0 <= start) by (subst start; destruct startIndex; simpl in *; lia).
  assert (Hclamp : (if start >? len content then len content else start)
                   = Z.min (default 0 startIndex) (len content)).
  { replace (default 0 startIndex) with start by (subst start; now destruct startIndex).
    destruct (Z.gtb_spec start (len content)); lia. }
  rewrite Hclamp. clear Hclamp.
  set (lo := Z.min (default 0 startIndex) (len content)).
  assert (Hlo : 0 <= lo <= len content).
  { subst lo. replace (default 0 startIndex) with start
      by (subst start; now destruct startIndex). lia. }
  rewrite (slice_from_in_range content lo Hlo).
  unfold mbind, outcome_bind. cbv zeta.
  destruct maxLength as [m|]; [|reflexivity].
  destruct (Z.gtb_spec (len (drop_bytes (Z.to_nat lo) content)) m) as [Hgt|Hle];
    [|reflexivity].
  simpl in Hm. rewrite slice_to_in_range by lia. reflexivity.
Qed.

(** For a non-negative start index the offset used is the start index
    limited to the byte length of the content, and a start index at or
    beyond the end yields the empty string. *)
Lemma FormatContent_start_clamped (content : string) (s : Z) (maxLength : option Z) :
  0 <= s -> nonneg maxLength ->
  0 <= Z.min s (len content) <= len content
  /\ FormatContent content (Some s) maxLength
     = FormatContent content (Some (Z.min s (len content))) maxLength
  /\ (len content <= s ->
      FormatContent content (Some s) maxLength = Returned EmptyString).
Proof.
  intros Hs Hm. pose proof (len_nonneg content) as Hl.
  split; [lia|]. split.
  - rewrite !FormatContent_nonneg by (simpl; auto; lia).
    rewrite !remaining_Some.
    replace (Z.min (Z.min s (len content)) (len content))
      with (Z.min s (len content)) by lia.
    reflexivity.
  - intros Hend. rewrite FormatContent_nonneg by (simpl; auto).
    rewrite remaining_Some. rewrite Z.min_r by lia.
    rewrite drop_bytes_all by (unfold len; lia). cbv zeta.
    destruct maxLength as [m|]; [|reflexivity].
    simpl in Hm. destruct (Z.gtb_spec (len EmptyString) m) as [H|H]; [|reflexivity].
    unfold len in H. simpl in H. lia.
Qed.

(** With the length counted in bytes, the slice from 0 of the whole
    length is the identity. *)
Lemma FormatContent_whole_byte_length (content : string) :
  FormatContent content (Some 0) (Some (len content)) = Returned content.
Proof.
  pose proof (len_nonneg content) as Hl.
  rewrite FormatContent_nonneg by (simpl; lia).
  rewrite remaining_Some. rewrite Z.min_l by lia.
  change (drop_bytes (Z.to_nat 0) content) with content. cbv zeta.
  destruct (Z.gtb_spec (len content) (len content)); [lia | reflexivity].
Qed.

End paginator.

(** ** The paginator on the requests of the data model *)

(** C8: for every content, every non-negative (or absent) startIndex and
    every positive (or absent) maxLength, FormatContent does not panic: it
    returns a string. *)
Theorem FormatContent_total (content : string) (startIndex maxLength : option Z) :
  nonneg startIndex -> positive maxLength ->
  exists text, FormatContent content startIndex maxLength = Returned text.
Proof.
  intros Hs Hm. eexists.
  apply FormatContent_nonneg; [exact Hs | exact (positive_nonneg _ Hm)].
Qed.

Lemma FormatContent_total_witness :
  exists text, FormatContent "abcdefghij" (Some 3) (Some 4) = Returned text.
Proof.
  apply (FormatContent_total "abcdefghij" (Some 3) (Some 4)); simpl; lia.
Defined.

(** The marker, with the limit counted in bytes as the code counts it: the
    slice of "abcdefghij" from 0 with limit 5 is "abcde" followed by the
    fixed marker; no marker is appended when no limit is given, nor when the
    bytes that remain after the start offset are no more than the limit: the
    result is then the remaining content itself. *)
Lemma FormatContent_marker_only_on_truncation :
  FormatContent "abcdefghij" (Some 0) (Some 5)
  = Returned ("abcde" +:+ LF +:+ LF +:+
              "[Content truncated. Use start_index to get more content.]")
  /\ (forall content startIndex,
        nonneg startIndex ->
        FormatContent content startIndex None
        = Returned (remaining content startIndex))
  /\ (forall content startIndex m,
        nonneg startIndex ->
        len (remaining content startIndex) <= m ->
        FormatContent content startIndex (Some m)
        = Returned (remaining content startIndex)).
Proof.
  split; [reflexivity|]. split.
  - intros content startIndex Hs.
    now rewrite FormatContent_nonneg by (simpl; auto).
  - intros content startIndex m Hs Hfit.
    pose proof (len_nonneg (remaining content startIndex)) as Hl.
    rewrite FormatContent_nonneg by (simpl; auto; lia). cbv zeta.
    destruct (Z.gtb_spec (len (remaining content startIndex)) m); [lia | reflexivity].
Qed.

Lemma FormatContent_marker_only_on_truncation_witness :
  FormatContent "hello world" (Some 6) None = Returned "world"%string
  /\ FormatContent "hello world" (Some 6) (Some 5) = Returned "world"%string.
Proof.
  split.
  - apply (proj1 (proj2 FormatContent_marker_only_on_truncation)
             "hello world"%string (Some 6)).
    simpl; lia.
  - apply (proj2 (proj2 FormatContent_marker_only_on_truncation)
             "hello world"%string (Some 6) 5).
    + simpl; lia.
    + vm_compute; discriminate.
Defined.

(** C10, as the code has it: whenever truncation occurs (maxLength is set
    and the content that remains after the start offset is longer), the
    text returned is the cut of exactly maxLength bytes followed by the
    marker, which has 59 characters; its length is maxLength + 59, strictly
    more than maxLength. *)
Theorem FormatContent_truncated_length (content : string) (startIndex : option Z) (m : Z) :
  nonneg startIndex -> 0 <= m ->
  len (remaining content startIndex) > m ->
  exists cut,
    FormatContent content startIndex (Some m) = Returned (cut +:+ truncation_marker)
    /\ cut = take_bytes (Z.to_nat m) (remaining content startIndex)
    /\ len cut = m
    /\ len truncation_marker = 59
    /\ len (cut +:+ truncation_marker) = m + 59
    /\ len (cut +:+ truncation_marker) > m.
Proof.
  intros Hs Hm Hlong.
  assert (Hcut : len (take_bytes (Z.to_nat m) (remaining content startIndex)) = m).
  { unfold len in *. rewrite length_take_bytes. lia. }
  exists (take_bytes (Z.to_nat m) (remaining content startIndex)).
  split; [|split; [reflexivity|split; [exact Hcut|split; [reflexivity|]]]].
  - rewrite FormatContent_nonneg by (simpl; auto). cbv zeta.
    destruct (Z.gtb_spec (len (remaining content startIndex)) m); [reflexivity | lia].
  - rewrite len_append, Hcut. change (len truncation_marker) with 59. lia.
Qed.

Lemma FormatContent_truncated_length_witness :
  exists cut,
    FormatContent "abcdefghij" (Some 2) (Some 3) = Returned (cut +:+ truncation_marker)
    /\ cut = "cde"%string
    /\ len cut = 3
    /\ len truncation_marker = 59
    /\ len (cut +:+ truncation_marker) = 3 + 59
    /\ len (cut +:+ truncation_marker) > 3.
Proof.
  apply (FormatContent_truncated_length "abcdefghij" (Some 2) 3).
  - simpl; lia.
  - lia.
  - vm_compute; reflexivity.
Defined.

(** C10, as stated, fails: the marker does not have 58 characters, so the
    text returned for Slice("abcdefghij", 0, 5) is not a 5-unit cut
    followed by a 58-character marker. *)
Lemma FormatContent_marker_not_58 :
  ~ (exists cut marker,
       FormatContent "abcdefghij" (Some 0) (Some 5) = Returned (cut +:+ marker)
       /\ len cut = 5 /\ len marker = 58).
Proof.
  intros (cut & marker & Heq & Hcut & Hmarker).
  assert (Hlen : len (cut +:+ marker) = 64).
  { apply (f_equal (fun o => match o with Returned t => len t | Panicked => 0 end))
      in Heq.
    symmetry. exact Heq. }
  rewrite len_append in Hlen. lia.
Qed.

(** C6 at the start index -1: only the upper bound is clamped, and slicing
    at a negative offset panics. *)
Theorem FormatContent_negative_start_panics :
  FormatContent "abc" (Some (-1)) None = Panicked.
Proof. reflexivity. Qed.

(** The panic of C6 is met at every negative start index. *)
Lemma FormatContent_negative_start (content : string) (s : Z) (maxLength : option Z) :
  s < 0 -> FormatContent content (Some s) maxLength = Panicked.
Proof.
  intros Hs. unfold FormatContent. pose proof (len_nonneg content).
  destruct (Z.gtb_spec s (len content)); [lia|].
  now rewrite slice_from_negative.
Qed.

(** ** The paginator and code points *)

(** C3 at the content "é" (U+00E9, two bytes): with startIndex 1 the code
    returns the second byte alone, a continuation byte, where the slice over
    code points is empty; with maxLength 1 it cuts after the first byte,
    where the slice over code points is the whole content. *)
Theorem FormatContent_splits_code_point :
  let content := utf8.encode (233%N :: nil) in
  utf8.RuneCountInString content = 1 /\ len content = 2
  /\ FormatContent content (Some 1) None
     = Returned (String (ascii_of_nat 169) EmptyString)
  /\ utf8.starts_with_continuation (String (ascii_of_nat 169) EmptyString) = true
  /\ Slice (233%N :: nil) (Some 1) None = EmptyString
  /\ FormatContent content (Some 0) (Some 1)
     = Returned (String (ascii_of_nat 195) truncation_marker)
  /\ utf8.on_boundary content 1 = false
  /\ Slice (233%N :: nil) (Some 0) (Some 1) = content.
Proof. repeat split; reflexivity. Qed.

(** C5 at the content "é": its length in code points is 1, and the slice
    from 0 of that length is the first byte and the marker, not the
    content. *)
Theorem FormatContent_rune_length_not_identity :
  let content := utf8.encode (233%N :: nil) in
  FormatContent content (Some 0) (Some (utf8.RuneCountInString content))
  = Returned (String (ascii_of_nat 195) truncation_marker)
  /\ FormatContent content (Some 0) (Some (utf8.RuneCountInString content))
     <> Returned content.
Proof. split; [reflexivity | discriminate]. Qed.

(** C7 at the content "é" with maxLength 1: the example of the claim holds
    (the slice of "abcdefghij" from 0 with limit 5 is "abcde" and the
    marker), but content that fits within the limit is not left without a
    marker: "é" is one code point, within the limit of 1, the slice over code
    points is the content itself, and the code, which compares the limit with
    the two bytes of the content, returns the first byte followed by the
    marker. *)
Theorem FormatContent_marker_on_fitting_content :
  let content := utf8.encode (233%N :: nil) in
  FormatContent "abcdefghij" (Some 0) (Some 5)
  = Returned ("abcde" +:+ truncation_marker)
  /\ utf8.RuneCountInString content <= 1
  /\ Slice (233%N :: nil) (Some 0) (Some 1) = content
  /\ FormatContent content (Some 0) (Some 1)
     = Returned (String (ascii_of_nat 195) EmptyString +:+ truncation_marker)
  /\ FormatContent content (Some 0) (Some 1) <> Returned content.
Proof.
  cbv zeta. split; [reflexivity|]. split; [vm_compute; discriminate|].
  split; [reflexivity|]. split; [reflexivity | discriminate].
Qed.

(** On content whose code points all take one byte, bytes and code points
    coincide, and the code computes the slice over code points. *)
Section single_byte_content.

Lemma encode_single_byte_cons (r : N) (rs : list N) :
  (r < 128)%N ->
  utf8.encode (r :: rs) = String (utf8.byte_of r) (utf8.encode rs).
Proof.
  intros Hr. simpl. unfold utf8.EncodeRune.
  destruct (N.ltb_spec r 128); [reflexivity | lia].
Qed.

Lemma length_encode_single_byte (rs : list N) :
  single_byte rs -> String.length (utf8.encode rs) = List.length rs.
Proof.
  induction 1 as [|r rs Hr _ IH]; [reflexivity|].
  rewrite encode_single_byte_cons by exact Hr. simpl. now rewrite IH.
Qed.

Lemma drop_bytes_encode (n : nat) (rs : list N) :
  single_byte rs -> drop_bytes n (utf8.encode rs) = utf8.encode (drop n rs).
Proof.
  intros H. revert n. induction H as [|r rs Hr _ IH]; intros [|n]; try reflexivity.
  rewrite encode_single_byte_cons by exact Hr. simpl. apply IH.
Qed.

Lemma take_bytes_encode (n : nat) (rs : list N) :
  single_byte rs -> take_bytes n (utf8.encode rs) = utf8.encode (take n rs).
Proof.
  intros H. revert n. induction H as [|r rs Hr Hrs IH]; intros [|n]; try reflexivity.
  rewrite encode_single_byte_cons by exact Hr.
  change (take (S n) (r :: rs)) with (r :: take n rs).
  rewrite encode_single_byte_cons by exact Hr.
  simpl. now rewrite IH.
Qed.

Lemma FormatContent_single_byte (rs : list N) (startIndex maxLength : option Z) :
  single_byte rs -> nonneg startIndex -> nonneg maxLength ->
  FormatContent (utf8.encode rs) startIndex maxLength
  = Returned (Slice rs startIndex maxLength).
Proof.
  intros Hrs Hs Hm. rewrite FormatContent_nonneg by assumption.
  f_equal. unfold Slice, remaining. cbv zeta.
  assert (Hlen : len (utf8.encode rs) = Z.of_nat (List.length rs)).
  { unfold len. now rewrite length_encode_single_byte. }
  rewrite Hlen.
  assert (Hstart : Z.max 0 (Z.min (default 0 startIndex) (Z.of_nat (List.length rs)))
                   = Z.min (default 0 startIndex) (Z.of_nat (List.length rs))).
  { destruct startIndex; simpl in *; lia. }
  rewrite Hstart. rewrite drop_bytes_encode by exact Hrs.
  set (rest := drop _ rs).
  assert (Hrest : single_byte rest) by (apply Forall_drop; exact Hrs).
  assert (Hlen' : len (utf8.encode rest) = Z.of_nat (List.length rest)).
  { unfold len. now rewrite length_encode_single_byte. }
  rewrite Hlen'. destruct maxLength as [m|]; [|reflexivity].
  destruct (Z.gtb_spec (Z.of_nat (List.length rest)) m); [|reflexivity].
  now rewrite take_bytes_encode.
Qed.

End single_byte_content.

(** ** The transformer, [ProcessHTML] *)
Section transformer.
Variable L : Libraries.



(** When extraction succeeds and conversion fails, what comes back is the
    extracted article, which replaced the input before the conversion. *)
Lemma ProcessHTML_conversion_error_after_extraction
  (html article e : string) (doc : Node L) :
  html_Parse L html = inl doc ->
  readability_FromDocument L doc = inl article ->
  article <> EmptyString ->
  htmltomarkdown_ConvertString L article = inr e ->
  ProcessHTML L html = article.
Proof.
  intros Hp Hr Hne Hc. unfold ProcessHTML. rewrite Hp, Hr.
  destruct (String.eqb_spec article EmptyString) as [->|_]; [congruence|].
  simpl. now rewrite Hc.
Qed.

End transformer.

(** ** The fetcher *)
Section fetcher_facts.
Import nethttp fetcher.

Ltac run :=
  unfold robots_verdict, sent, record, Do, mbind, M_bind, mret, M_ret, emit,
    cache_lookup, cache_store, time_Now; simpl.

Lemma content_requests_snoc (t : list Event) (e : Event) :
  content_requests (t ++ e :: nil)
  = content_requests t ++
    match e with ContentRequest r => r :: nil | _ => nil end.
Proof.
  unfold content_requests. rewrite omap_app. f_equal. now destruct e.
Qed.

Lemma record_content_requests (f : HTTPFetcher) (call : observability.MetricCall)
  (w : World) :
  content_requests (trace (snd (record f call w))) = content_requests (trace w).
Proof.
  unfold record. destruct (metrics f); run; [|reflexivity].
  rewrite content_requests_snoc. now rewrite app_nil_r.
Qed.

Lemma robots_requests_snoc (t : list Event) (e : Event) :
  robots_requests (t ++ e :: nil)
  = robots_requests t ++
    match e with RobotsTxtRequest url => url :: nil | _ => nil end.
Proof.
  unfold robots_requests. rewrite omap_app. f_equal. now destruct e.
Qed.

Lemma record_robots_requests (f : HTTPFetcher) (call : observability.MetricCall)
  (w : World) :
  robots_requests (trace (snd (record f call w))) = robots_requests (trace w).
Proof.
  unfold record. destruct (metrics f); run; [|reflexivity].
  rewrite robots_requests_snoc. now rewrite app_nil_r.
Qed.

Lemma fetch_policy_content_requests (c : robots.Checker) (origin : string) (w : World) :
  content_requests (trace (snd (robots.fetch_policy c origin w)))
  = content_requests (trace w).
Proof.
  unfold robots.fetch_policy. run.
  rewrite content_requests_snoc. now rewrite app_nil_r.
Qed.

(** The robots checker sends no content request. *)
Lemma IsAllowed_content_requests (c : robots.Checker) (url : string) (w : World) :
  content_requests (trace (snd (robots.IsAllowed c url w)))
  = content_requests (trace w).
Proof.
  unfold robots.IsAllowed. destruct (robots.ignoreRobots c); [reflexivity|].
  destruct (robotstxt.split_url url) as [origin path]. run.
  destruct (robotsCache w !! origin) as [e|].
  - destruct (robots.fresh (now w) e); [reflexivity|].
    pose proof (fetch_policy_content_requests c origin w) as H.
    destruct (robots.fetch_policy c origin w) as [entry w']. exact H.
  - pose proof (fetch_policy_content_requests c origin w) as H.
    destruct (robots.fetch_policy c origin w) as [entry w']. exact H.
Qed.

(** With the bypass flag the checker answers true and touches nothing. *)
Lemma IsAllowed_bypass (c : robots.Checker) (url : string) (w : World) :
  robots.ignoreRobots c = true -> robots.IsAllowed c url w = (true, w).
Proof. intros H. unfold robots.IsAllowed. now rewrite H. Qed.

Lemma robots_verdict_content_requests (f : HTTPFetcher) (req : FetchRequest)
  (w : World) :
  content_requests (trace (snd (robots_verdict f req w)))
  = content_requests (trace w).
Proof.
  unfold robots_verdict, mbind, M_bind.
  pose proof (record_content_requests f
    (observability.RecordRobotsCheck (ReqURL req) "checking") w) as H1.
  destruct (record f _ w) as [[] w0]. simpl in H1.
  rewrite IsAllowed_content_requests. exact H1.
Qed.

(** [fetchURL], path by path. *)
Lemma fetchURL_paths (f : HTTPFetcher) (url : string) (raw : bool) (w : World) :
  fetchURL f url raw w =
  match invalidURL (httpClient f) url with
  | Some err => ((EmptyString, Some ("failed to create request: " +:+ err)), w)
  | None =>
      let w1 := sent (request_sent f url) w in
      match RoundTrip (httpClient f) (request_sent f url) with
      | inr err => ((EmptyString, Some ("failed to fetch URL: " +:+ err)), w1)
      | inl resp =>
          if negb (StatusCode resp =? StatusOK) then
            ((EmptyString,
              Some ("HTTP " +:+ itoa (StatusCode resp) +:+ ": " +:+ Status resp)), w1)
          else
            match Body resp with
            | inr err =>
                ((EmptyString, Some ("failed to read response body: " +:+ err)), w1)
            | inl body =>
                if negb raw &&
                   Contains (Header_Get (RespHeader resp) "Content-Type") "text/html"
                then
                  let processed := ProcessHTML (processor f) body in
                  ((processed, None),
                   snd (record f
                          (observability.RecordContentSizeRatio (len body) (len processed))
                     (snd (record f (observability.RecordContentProcessing "text/html")
                        (snd (record f (observability.RecordHTMLToMarkdownConversion true)
                           w1))))))
                else ((body, None), w1)
            end
      end
  end.
Proof.
  unfold fetchURL, NewRequest.
  destruct (invalidURL (httpClient f) url) as [err|]; [reflexivity|].
  fold (request_sent f url). run.
  destruct (RoundTrip (httpClient f) (request_sent f url)) as [resp|err];
    [|reflexivity].
  destruct (negb (StatusCode resp =? StatusOK)); [reflexivity|].
  destruct (Body resp) as [body|err]; [|reflexivity].
  destruct (negb raw && Contains _ _); [|reflexivity].
  destruct (metrics f); reflexivity.
Qed.

(** An error of [fetchURL] comes with empty content. *)
Lemma fetchURL_error_no_content (f : HTTPFetcher) (url : string) (raw : bool)
  (w : World) (content e : string) (w' : World) :
  fetchURL f url raw w = ((content, Some e), w') -> content = EmptyString.
Proof.
  rewrite fetchURL_paths.
  destruct (invalidURL (httpClient f) url); [congruence|]. cbv zeta.
  destruct (RoundTrip _ _) as [resp|]; [|congruence].
  destruct (negb (StatusCode resp =? StatusOK)); [congruence|].
  destruct (Body resp); [|congruence].
  destruct (negb raw && _); congruence.
Qed.

(** [FetchURL], in terms of the verdict of the robots check. *)
Lemma FetchURL_paths (f : HTTPFetcher) (req : FetchRequest) (w : World) :
  FetchURL f req w =
  let (allowed, w1) := robots_verdict f req w in
  if allowed then
    let '((content, err), w2) :=
      fetchURL f (ReqURL req) (Raw req)
        (snd (record f (observability.RecordRobotsCheck (ReqURL req) "allowed") w1)) in
    (match err with
     | Some e => Returned (EmptyString, Some e)
     | None =>
         match FormatContent content (StartIndex req) (MaxLength req) with
         | Returned text => Returned (text, None)
         | Panicked => Panicked
         end
     end, w2)
  else
    (Returned (EmptyString,
       Some ("access to " +:+ ReqURL req +:+ " is disallowed by robots.txt")),
     snd (record f (observability.RecordRobotsBlocked (ReqURL req))
       (snd (record f (observability.RecordRobotsCheck (ReqURL req) "disallowed")
          w1)))).
Proof.
  unfold FetchURL, robots_verdict, mbind, M_bind.
  destruct (record f (observability.RecordRobotsCheck (ReqURL req) "checking") w)
    as [[] w0].
  destruct (robots.IsAllowed (robotsChecker f) (ReqURL req) w0) as [[|] w1]; simpl.
  - destruct (record f _ w1) as [[] w1']. simpl.
    destruct (fetchURL f (ReqURL req) (Raw req) w1') as [[content [e|]] w2];
      reflexivity.
  - destruct (record f _ w1) as [[] w1']. simpl.
    destruct (record f _ w1') as [[] w1'']. reflexivity.
Qed.

End fetcher_facts.

(** ** The pipeline, [FetchURL] *)

Import nethttp fetcher.

(** C1: when the robots checker reports the URL of a request as disallowed,
    FetchURL returns the robots error and the HTTP client is not called for
    the content (the content requests of the trace are those from before the
    call).  When the bypass flag is set, the checker allows every URL without
    touching the network or the cache, and FetchURL goes on to the fetch
    whatever the URL: what it returns is the fetched content, paginated, or
    the error of the fetch, never the robots error for its own part, and the
    content request of the URL is the one request added to the trace (none
    when http.NewRequest rejects the URL). *)
Theorem FetchURL_robots_gate (f : HTTPFetcher) (req : FetchRequest) (w : World) :
  (forall w1,
     robots_verdict f req w = (false, w1) ->
     exists w',
       FetchURL f req w
       = (Returned (EmptyString,
            Some ("access to " +:+ ReqURL req +:+ " is disallowed by robots.txt")), w')
       /\ content_requests (trace w') = content_requests (trace w))
  /\ (robots.ignoreRobots (robotsChecker f) = true ->
      (forall url w0, robots.IsAllowed (robotsChecker f) url w0 = (true, w0))
      /\ fst (robots_verdict f req w) = true
      /\ (let w1 :=
            snd (record f (observability.RecordRobotsCheck (ReqURL req) "allowed")
              (snd (record f (observability.RecordRobotsCheck (ReqURL req) "checking")
                 w))) in
          FetchURL f req w
          = (paginate req (fst (fetchURL f (ReqURL req) (Raw req) w1)),
             snd (fetchURL f (ReqURL req) (Raw req) w1)))
      /\ content_requests (trace (snd (FetchURL f req w)))
         = content_requests (trace w) ++
           match invalidURL (httpClient f) (ReqURL req) with
           | Some _ => nil
           | None => request_sent f (ReqURL req) :: nil
           end
      /\ robots_requests (trace (snd (FetchURL f req w))) = robots_requests (trace w)).
Proof.
  split.
  - intros w1 Hv. rewrite FetchURL_paths, Hv. eexists. split; [reflexivity|].
    rewrite !record_content_requests.
    pose proof (robots_verdict_content_requests f req w) as H.
    now rewrite Hv in H.
  - intros Hb.
    assert (Hv : robots_verdict f req w
                 = (true, snd (record f
                     (observability.RecordRobotsCheck (ReqURL req) "checking") w))).
    { unfold robots_verdict, mbind, M_bind.
      destruct (record f _ w) as [[] w0]. now rewrite IsAllowed_bypass. }
    assert (Hf : let w1 :=
                   snd (record f (observability.RecordRobotsCheck (ReqURL req) "allowed")
                     (snd (record f
                        (observability.RecordRobotsCheck (ReqURL req) "checking") w))) in
                 FetchURL f req w
                 = (paginate req (fst (fetchURL f (ReqURL req) (Raw req) w1)),
                    snd (fetchURL f (ReqURL req) (Raw req) w1))).
    { cbv zeta. rewrite FetchURL_paths, Hv. unfold paginate.
      destruct (fetchURL f (ReqURL req) (Raw req) _) as [[content [e|]] w2];
        reflexivity. }
    cbv zeta in Hf.
    split; [|split; [|split; [|split]]].
    + intros url w0. now apply IsAllowed_bypass.
    + now rewrite Hv.
    + exact Hf.
    + rewrite Hf. cbn [snd]. rewrite fetchURL_paths.
      destruct (invalidURL (httpClient f) (ReqURL req)).
      { cbn [snd]. now rewrite !record_content_requests, app_nil_r. }
      cbv zeta.
      assert (Hs : forall w0,
                 content_requests (trace (sent (request_sent f (ReqURL req)) w0))
                 = content_requests (trace w0) ++ request_sent f (ReqURL req) :: nil)
        by (intros w0; unfold sent, emit; cbn [snd trace];
            now rewrite content_requests_snoc).
      destruct (RoundTrip _ _) as [resp|]; cbn [snd];
        [|now rewrite Hs, !record_content_requests].
      destruct (negb (StatusCode resp =? StatusOK)); cbn [snd];
        [now rewrite Hs, !record_content_requests|].
      destruct (Body resp) as [body|]; cbn [snd];
        [|now rewrite Hs, !record_content_requests].
      destruct (negb (Raw req) && _); cbn [snd];
        now rewrite ?record_content_requests, Hs, !record_content_requests.
    + rewrite Hf. cbn [snd]. rewrite fetchURL_paths.
      assert (Hs : forall w0,
                 robots_requests (trace (sent (request_sent f (ReqURL req)) w0))
                 = robots_requests (trace w0))
        by (intros w0; unfold sent, emit; cbn [snd trace];
            rewrite robots_requests_snoc; now rewrite app_nil_r).
      destruct (invalidURL (httpClient f) (ReqURL req)).
      { cbn [snd]. now rewrite !record_robots_requests. }
      cbv zeta.
      destruct (RoundTrip _ _) as [resp|]; cbn [snd];
        [|now rewrite Hs, !record_robots_requests].
      destruct (negb (StatusCode resp =? StatusOK)); cbn [snd];
        [now rewrite Hs, !record_robots_requests|].
      destruct (Body resp) as [body|]; cbn [snd];
        [|now rewrite Hs, !record_robots_requests].
      destruct (negb (Raw req) && _); cbn [snd];
        now rewrite ?record_robots_requests, Hs, !record_robots_requests.
Qed.

Lemma FetchURL_robots_gate_witness :
  (exists w',
     FetchURL (scenario.fetcher_of false)
       (scenario.request "https://example.com/private/page" false) scenario.start
     = (Returned (EmptyString,
          Some "access to https://example.com/private/page is disallowed by robots.txt"%string),
        w')
     /\ content_requests (trace w') = nil)
  /\ fst (FetchURL (scenario.fetcher_of true)
            (scenario.request "https://example.com/private/page" false) scenario.start)
     = Returned (EmptyString, Some "HTTP 404: 404 Not Found"%string)
  /\ content_requests
       (trace (snd (FetchURL (scenario.fetcher_of true)
                      (scenario.request "https://example.com/private/page" false)
                      scenario.start)))
     = request_sent (scenario.fetcher_of true) "https://example.com/private/page" :: nil
  /\ robots_requests
       (trace (snd (FetchURL (scenario.fetcher_of true)
                      (scenario.request "https://example.com/private/page" false)
                      scenario.start)))
     = nil.
Proof.
  split.
  - apply (proj1 (FetchURL_robots_gate (scenario.fetcher_of false)
                    (scenario.request "https://example.com/private/page" false)
                    scenario.start)
             (snd (robots_verdict (scenario.fetcher_of false)
                     (scenario.request "https://example.com/private/page" false)
                     scenario.start))).
    vm_compute. reflexivity.
  - pose proof (proj2 (FetchURL_robots_gate (scenario.fetcher_of true)
                         (scenario.request "https://example.com/private/page" false)
                         scenario.start) eq_refl)
      as (_ & _ & Hfetch & Hsent & Hrobots).
    split; [|split].
    + rewrite Hfetch. vm_compute. reflexivity.
    + rewrite Hsent. reflexivity.
    + rewrite Hrobots. reflexivity.
Defined.

(** C2: every return of FetchURL is content with no error, or one error
    with empty content, never both (and it fails to return only on a
    request outside the data model); a response whose status is not 200
    yields the error "HTTP <code>: <status>" with empty content. *)
Theorem FetchURL_content_xor_error (f : HTTPFetcher) (req : FetchRequest) (w : World) :
  match fst (FetchURL f req w) with
  | Returned (content, None) => True
  | Returned (content, Some _) => content = EmptyString
  | Panicked => ~ valid_request req
  end
  /\ (forall w1 resp,
        robots_verdict f req w = (true, w1) ->
        invalidURL (httpClient f) (ReqURL req) = None ->
        RoundTrip (httpClient f) (request_sent f (ReqURL req)) = inl resp ->
        StatusCode resp <> 200 ->
        fst (FetchURL f req w)
        = Returned (EmptyString,
            Some ("HTTP " +:+ itoa (StatusCode resp) +:+ ": " +:+ Status resp))).
Proof.
  split.
  - rewrite FetchURL_paths.
    destruct (robots_verdict f req w) as [[|] w1]; [|reflexivity].
    destruct (fetchURL f (ReqURL req) (Raw req) _) as [[content [e|]] w2];
      [reflexivity|]. simpl.
    destruct (FormatContent content (StartIndex req) (MaxLength req)) eqn:Hf;
      [exact I|].
    intros [Hs Hm].
    rewrite FormatContent_nonneg in Hf by auto using positive_nonneg.
    discriminate.
  - intros w1 resp Hv Hu Hr Hc. rewrite FetchURL_paths, Hv, fetchURL_paths, Hu.
    cbv zeta. rewrite Hr.
    destruct (Z.eqb_spec (StatusCode resp) StatusOK) as [Heq|_]; [contradiction|].
    reflexivity.
Qed.

Lemma FetchURL_content_xor_error_witness :
  fst (FetchURL (scenario.fetcher_of false)
         (scenario.request "https://example.com/missing" false) scenario.start)
  = Returned (EmptyString, Some "HTTP 404: 404 Not Found"%string).
Proof.
  refine (proj2 (FetchURL_content_xor_error (scenario.fetcher_of false)
                   (scenario.request "https://example.com/missing" false)
                   scenario.start)
            (snd (robots_verdict (scenario.fetcher_of false)
                    (scenario.request "https://example.com/missing" false)
                    scenario.start))
            {| StatusCode := 404; Status := "404 Not Found";
               RespHeader := scenario.html_header;
               Body := inl "<h1>Not Found</h1>"%string |} _ _ _ _).
  - vm_compute. reflexivity.
  - reflexivity.
  - vm_compute. reflexivity.
  - simpl. lia.
Defined.

(** C9: on a successful fetch (the request is sent and answered 200 with a
    readable body), when raw is true, whatever the content type, or when
    the content type does not contain text/html, fetchURL returns the body
    as it is and does nothing but send the request: the transformer is not
    run.  FetchURL then paginates that body. *)
Theorem fetchURL_passthrough (f : HTTPFetcher) (url : string) (raw : bool)
  (resp : Response) (body : string) :
  invalidURL (httpClient f) url = None ->
  RoundTrip (httpClient f) (request_sent f url) = inl resp ->
  StatusCode resp = 200 ->
  Body resp = inl body ->
  raw = true \/
  Contains (Header_Get (RespHeader resp) "Content-Type") "text/html" = false ->
  (forall w, fetchURL f url raw w = ((body, None), sent (request_sent f url) w))
  /\ (forall req w w1,
        ReqURL req = url -> Raw req = raw ->
        robots_verdict f req w = (true, w1) ->
        fst (FetchURL f req w)
        = match FormatContent body (StartIndex req) (MaxLength req) with
          | Returned text => Returned (text, None)
          | Panicked => Panicked
          end).
Proof.
  intros Hu Hr Hc Hb Hraw.
  assert (Hfetch : forall w,
             fetchURL f url raw w = ((body, None), sent (request_sent f url) w)).
  { intros w. rewrite fetchURL_paths, Hu. cbv zeta. rewrite Hr, Hc, Hb. simpl.
    destruct Hraw as [-> | ->]; [reflexivity|].
    now rewrite andb_false_r. }
  split; [exact Hfetch|].
  intros req w w1 <- <- Hv. rewrite FetchURL_paths, Hv, Hfetch. reflexivity.
Qed.

Lemma fetchURL_passthrough_witness :
  (forall w,
     fetchURL (scenario.fetcher_of false) "https://example.com/public/page" true w
     = (("<p>hi</p>"%string, None),
        sent (request_sent (scenario.fetcher_of false) "https://example.com/public/page") w))
  /\ fst (FetchURL (scenario.fetcher_of false)
            (scenario.request "https://example.com/public/page" true) scenario.start)
     = Returned ("<p>hi</p>"%string, None).
Proof.
  destruct (fetchURL_passthrough (scenario.fetcher_of false)
              "https://example.com/public/page" true
              {| StatusCode := 200; Status := "200 OK";
                 RespHeader := scenario.html_header; Body := inl "<p>hi</p>"%string |}
              "<p>hi</p>") as [Hfetch HFetch].
  - reflexivity.
  - vm_compute. reflexivity.
  - reflexivity.
  - reflexivity.
  - left. reflexivity.
  - split; [exact Hfetch|].
    apply (HFetch (scenario.request "https://example.com/public/page" true)
             scenario.start
             (snd (robots_verdict (scenario.fetcher_of false)
                     (scenario.request "https://example.com/public/page" true)
                     scenario.start))).
    + reflexivity.
    + reflexivity.
    + vm_compute. reflexivity.
Defined.

(** ** Failures of the transformer *)




(** * Further properties of the pipeline *)

(** ** Substrings *)
Section substrings.

Lemma drop_bytes_add (n m : nat) (s : string) :
  drop_bytes (n + m) s = drop_bytes m (drop_bytes n s).
Proof.
  revert s. induction n as [|n IH]; intros s; [reflexivity|].
  destruct s as [|c s]; simpl.
  - now destruct m.
  - apply IH.
Qed.

Lemma HasPrefix_append (s prefix : string) :
  HasPrefix s prefix = true <-> exists rest, s = prefix +:+ rest.
Proof.
  revert s. induction prefix as [|p prefix IH]; intros s.
  - split; [intros _; now exists s | now destruct s].
  - destruct s as [|c s]; simpl.
    + split; [discriminate | intros [rest H]; discriminate].
    + destruct (Ascii.eqb_spec c p) as [->|Hne].
      * rewrite IH. split; intros [rest H]; exists rest.
        -- rewrite append_String. now rewrite H.
        -- rewrite append_String in H. now inversion H.
      * split; [discriminate|]. intros [rest H].
        rewrite append_String in H. inversion H. contradiction.
Qed.

Lemma Contains_cons (c : ascii) (s substr : string) :
  Contains (String c s) substr = HasPrefix (String c s) substr || Contains s substr.
Proof. reflexivity. Qed.

Lemma Contains_empty (substr : string) :
  Contains EmptyString substr = HasPrefix EmptyString substr.
Proof. simpl. now rewrite orb_false_r. Qed.

(** [strings.Contains] holds exactly of the strings with the substring
    somewhere inside. *)
Lemma Contains_append (s substr : string) :
  Contains s substr = true <-> exists pre post, s = pre +:+ substr +:+ post.
Proof.
  induction s as [|c s IH].
  - rewrite Contains_empty, HasPrefix_append. split.
    + intros [rest H]. now exists EmptyString, rest.
    + intros (pre & post & H). destruct pre as [|p pre].
      * now exists post.
      * rewrite append_String in H. discriminate.
  - rewrite Contains_cons, orb_true_iff, IH, HasPrefix_append. split.
    + intros [[rest H] | (pre & post & H)].
      * now exists EmptyString, rest.
      * exists (String c pre), post. rewrite append_String. now rewrite H.
    + intros (pre & post & H). destruct pre as [|p pre].
      * left. now exists post.
      * right. rewrite append_String in H. inversion H. now exists pre, post.
Qed.

End substrings.

(** ** Pages of content *)

(** X1: when a page is truncated, the cut and the content from start index
    plus maxLength on make up the content from the start index on: the next
    page picks up exactly where the cut ended. *)
Theorem FormatContent_next_page (content : string) (s m : Z) :
  0 <= s -> 0 <= m ->
  len (remaining content (Some s)) > m ->
  exists cut,
    FormatContent content (Some s) (Some m) = Returned (cut +:+ truncation_marker)
    /\ len cut = m
    /\ cut +:+ remaining content (Some (s + m)) = remaining content (Some s).
Proof.
  intros Hs Hm Hlong.
  pose proof (len_nonneg content) as Hl.
  assert (Hrem : len (remaining content (Some s)) = len content - Z.min s (len content)).
  { rewrite remaining_Some. unfold len. rewrite length_drop_bytes.
    unfold len in Hl. lia. }
  exists (take_bytes (Z.to_nat m) (remaining content (Some s))).
  split; [|split].
  - rewrite FormatContent_nonneg by (simpl; auto). cbv zeta.
    destruct (Z.gtb_spec (len (remaining content (Some s))) m); [reflexivity | lia].
  - unfold len in *. rewrite length_take_bytes. lia.
  - rewrite !remaining_Some.
    rewrite (Z.min_l s) by lia. rewrite (Z.min_l (s + m)) by lia.
    rewrite Z2Nat.inj_add by lia. rewrite drop_bytes_add.
    apply take_drop_bytes.
Qed.

Lemma FormatContent_next_page_witness :
  exists cut,
    FormatContent "abcdefghij" (Some 2) (Some 3) = Returned (cut +:+ truncation_marker)
    /\ len cut = 3
    /\ cut +:+ remaining "abcdefghij" (Some (2 + 3)) = remaining "abcdefghij" (Some 2).
Proof.
  apply (FormatContent_next_page "abcdefghij" 2 3).
  - lia.
  - lia.
  - vm_compute; reflexivity.
Defined.

(** X2: for a non-negative or absent start index and a non-negative
    maxLength, the text returned has at most maxLength + 59 bytes, whatever
    the size of the content. *)
Theorem FormatContent_size_bound (content : string) (startIndex : option Z) (m : Z) :
  nonneg startIndex -> 0 <= m ->
  exists text,
    FormatContent content startIndex (Some m) = Returned text
    /\ len text <= m + 59.
Proof.
  intros Hs Hm. rewrite FormatContent_nonneg by (simpl; auto). cbv zeta.
  eexists. split; [reflexivity|].
  destruct (Z.gtb_spec (len (remaining content startIndex)) m) as [Hgt|Hle]; [|lia].
  rewrite len_append. change (len truncation_marker) with 59.
  unfold len. rewrite length_take_bytes. lia.
Qed.

Lemma FormatContent_size_bound_witness :
  exists text,
    FormatContent "abcdefghij" (Some 1) (Some 4) = Returned text
    /\ len text <= 4 + 59.
Proof.
  apply (FormatContent_size_bound "abcdefghij" (Some 1) 4); simpl; lia.
Defined.

(** X3: a negative maxLength makes FormatContent panic, for every content
    and every start index: the length of what remains always exceeds it, and
    the cut is a slice with a negative bound. *)
Theorem FormatContent_negative_limit_panics
  (content : string) (startIndex : option Z) (m : Z) :
  m < 0 -> FormatContent content startIndex (Some m) = Panicked.
Proof.
  intros Hm. unfold FormatContent.
  destruct (slice_from content _) as [rest|] eqn:Hrest; [|reflexivity].
  unfold mbind, outcome_bind.
  pose proof (len_nonneg rest) as Hl.
  destruct (Z.gtb_spec (len rest) m) as [_|Hle]; [|lia].
  unfold slice_to. destruct (Z.ltb_spec m 0); [reflexivity | lia].
Qed.

Lemma FormatContent_negative_limit_panics_witness :
  FormatContent "abc" None (Some (-5)) = Panicked.
Proof.
  apply (FormatContent_negative_limit_panics "abc" None (-5)). lia.
Defined.

(** ** Effects of the pipeline on the world *)
Section effects.
Import nethttp fetcher.

Lemma after_events_untraced (w : World) : after_events (trace w) (untraced w) = w.
Proof. destruct w. unfold after_events, untraced. simpl. now rewrite app_nil_r. Qed.

Lemma after_events_app (t1 t2 : list Event) (w : World) :
  after_events t1 (after_events t2 w) = after_events (t1 ++ t2) w.
Proof. unfold after_events. simpl. now rewrite app_assoc. Qed.

Lemma emit_after_events (t : list Event) (e : Event) (w : World) :
  emit e (after_events t w) = (tt, after_events t (snd (emit e w))).
Proof. unfold emit, after_events. simpl. now rewrite app_assoc. Qed.

Lemma record_after_events (f : HTTPFetcher) (call : observability.MetricCall)
  (t : list Event) (w : World) :
  record f call (after_events t w) = (tt, after_events t (snd (record f call w))).
Proof.
  unfold record. destruct (metrics f); [apply emit_after_events | reflexivity].
Qed.

Lemma fetch_policy_after_events (c : robots.Checker) (origin : string)
  (t : list Event) (w : World) :
  robots.fetch_policy c origin (after_events t w)
  = (fst (robots.fetch_policy c origin w),
     after_events t (snd (robots.fetch_policy c origin w))).
Proof.
  unfold robots.fetch_policy, mbind, M_bind, mret, M_ret, time_Now, emit,
    cache_store, after_events. simpl. now rewrite app_assoc.
Qed.

(** What the robots checker answers and does depends on the cache and the
    clock, not on what was traced before. *)
Lemma IsAllowed_after_events (c : robots.Checker) (url : string)
  (t : list Event) (w : World) :
  robots.IsAllowed c url (after_events t w)
  = (fst (robots.IsAllowed c url w),
     after_events t (snd (robots.IsAllowed c url w))).
Proof.
  unfold robots.IsAllowed. destruct (robots.ignoreRobots c); [reflexivity|].
  destruct (robotstxt.split_url url) as [origin path].
  unfold mbind, M_bind, mret, M_ret, time_Now, cache_lookup.
  change (robotsCache (after_events t w)) with (robotsCache w).
  change (now (after_events t w)) with (now w).
  destruct (robotsCache w !! origin) as [e|].
  - destruct (robots.fresh (now w) e); [reflexivity|].
    rewrite fetch_policy_after_events.
    now destruct (robots.fetch_policy c origin w).
  - rewrite fetch_policy_after_events.
    now destruct (robots.fetch_policy c origin w).
Qed.

Lemma fetchURL_after_events (f : HTTPFetcher) (url : string) (raw : bool)
  (t : list Event) (w : World) :
  fetchURL f url raw (after_events t w)
  = (fst (fetchURL f url raw w), after_events t (snd (fetchURL f url raw w))).
Proof.
  rewrite !fetchURL_paths.
  destruct (invalidURL (httpClient f) url); [reflexivity|]. cbv zeta.
  assert (Hsent : sent (request_sent f url) (after_events t w)
                  = after_events t (sent (request_sent f url) w)).
  { unfold sent. now rewrite emit_after_events. }
  rewrite Hsent.
  destruct (RoundTrip _ _) as [resp|]; [|reflexivity].
  destruct (negb (StatusCode resp =? StatusOK)); [reflexivity|].
  destruct (Body resp) as [body|]; [|reflexivity].
  destruct (negb raw && _); [|reflexivity].
  cbv zeta. repeat (rewrite record_after_events; cbn [fst snd]). reflexivity.
Qed.

(** The outcome of [fetchURL] does not depend on the world it runs in. *)
Lemma fetchURL_result_fixed (f : HTTPFetcher) (url : string) (raw : bool)
  (w1 w2 : World) :
  fst (fetchURL f url raw w1) = fst (fetchURL f url raw w2).
Proof.
  rewrite !fetchURL_paths.
  destruct (invalidURL (httpClient f) url); [reflexivity|]. cbv zeta.
  destruct (RoundTrip _ _) as [resp|]; [|reflexivity].
  destruct (negb (StatusCode resp =? StatusOK)); [reflexivity|].
  destruct (Body resp) as [body|]; [|reflexivity].
  now destruct (negb raw && _).
Qed.

(** The events [fetchURL] adds to the trace: at most the request, and the
    three metrics of a conversion. *)
Lemma fetchURL_events (f : HTTPFetcher) (url : string) (raw : bool) (w : World) :
  exists calls,
    snd (fetchURL f url raw w)
    = after_events (trace w)
        {| trace :=
             match invalidURL (httpClient f) url with
             | Some _ => nil
             | None => ContentRequest (request_sent f url) :: map Metric calls
             end;
           robotsCache := robotsCache w; now := now w |}
    /\ (metrics f = false -> calls = nil)
    /\ Forall (fun call =>
                 match call with
                 | observability.RecordRobotsCheck _ _
                 | observability.RecordRobotsBlocked _ => False
                 | _ => True
                 end) calls.
Proof.
  rewrite fetchURL_paths.
  destruct (invalidURL (httpClient f) url).
  { exists nil. repeat split; auto. simpl. unfold after_events. simpl.
    destruct w. simpl. now rewrite app_nil_r. }
  cbv zeta.
  assert (Hplain : sent (request_sent f url) w
                   = after_events (trace w)
                       {| trace := ContentRequest (request_sent f url) :: map Metric nil;
                          robotsCache := robotsCache w; now := now w |})
    by reflexivity.
  destruct (RoundTrip _ _) as [resp|];
    [|exists nil; repeat split; auto].
  destruct (negb (StatusCode resp =? StatusOK));
    [exists nil; repeat split; auto|].
  destruct (Body resp) as [body|];
    [|exists nil; repeat split; auto].
  destruct (negb raw && _);
    [|exists nil; repeat split; auto].
  unfold record. destruct (metrics f) eqn:Hm.
  - eexists (_ :: _ :: _ :: nil). split; [|split].
    + unfold sent, emit, after_events. simpl. rewrite <- !app_assoc. reflexivity.
    + discriminate.
    + repeat constructor.
  - exists nil. repeat split; auto.
Qed.

End effects.

Section traces.
Import nethttp fetcher.

Lemma record_trace (f : HTTPFetcher) (call : observability.MetricCall) (w : World) :
  trace (snd (record f call w))
  = trace w ++ (if metrics f then Metric call :: nil else nil).
Proof.
  unfold record. destruct (metrics f); simpl; [reflexivity | now rewrite app_nil_r].
Qed.

Lemma record_same_state (f : HTTPFetcher) (call : observability.MetricCall) (w : World) :
  same_state (snd (record f call w)) w.
Proof. unfold record. destruct (metrics f); split; reflexivity. Qed.

(** The robots checker adds at most one event, a robots.txt request. *)
Lemma IsAllowed_trace (c : robots.Checker) (url : string) (w : World) :
  exists urls,
    trace (snd (robots.IsAllowed c url w)) = trace w ++ map RobotsTxtRequest urls
    /\ (List.length urls <= 1)%nat.
Proof.
  assert (Hfetch : forall origin,
             trace (snd (robots.fetch_policy c origin w))
             = trace w ++ map RobotsTxtRequest ((origin +:+ "/robots.txt") :: nil))
    by reflexivity.
  unfold robots.IsAllowed. destruct (robots.ignoreRobots c).
  { exists nil. simpl. rewrite app_nil_r. auto. }
  destruct (robotstxt.split_url url) as [origin path].
  unfold mbind, M_bind, mret, M_ret, time_Now, cache_lookup.
  destruct (robotsCache w !! origin) as [e|].
  - destruct (robots.fresh (now w) e).
    + exists nil. simpl. rewrite app_nil_r. auto.
    + specialize (Hfetch origin).
      destruct (robots.fetch_policy c origin w) as [entry w'].
      eexists. split; [exact Hfetch | simpl; lia].
  - specialize (Hfetch origin).
    destruct (robots.fetch_policy c origin w) as [entry w'].
    eexists. split; [exact Hfetch | simpl; lia].
Qed.

Lemma robots_verdict_trace (f : HTTPFetcher) (req : FetchRequest) (w : World) :
  exists urls,
    trace (snd (robots_verdict f req w))
    = trace w
      ++ (if metrics f
          then Metric (observability.RecordRobotsCheck (ReqURL req) "checking") :: nil
          else nil)
      ++ map RobotsTxtRequest urls
    /\ (List.length urls <= 1)%nat.
Proof.
  unfold robots_verdict, mbind, M_bind.
  pose proof (record_trace f
    (observability.RecordRobotsCheck (ReqURL req) "checking") w) as H0.
  destruct (record f _ w) as [[] w0]. simpl in H0.
  destruct (IsAllowed_trace (robotsChecker f) (ReqURL req) w0) as (urls & H & Hl).
  exists urls. split; [|exact Hl]. rewrite H, H0. now rewrite app_assoc.
Qed.

Lemma fetchURL_trace (f : HTTPFetcher) (url : string) (raw : bool) (w : World) :
  exists calls,
    trace (snd (fetchURL f url raw w))
    = trace w ++
      match invalidURL (httpClient f) url with
      | Some _ => nil
      | None => ContentRequest (request_sent f url) :: map Metric calls
      end
    /\ (metrics f = false -> calls = nil)
    /\ Forall (fun call =>
                 match call with
                 | observability.RecordRobotsCheck _ _
                 | observability.RecordRobotsBlocked _ => False
                 | _ => True
                 end) calls.
Proof.
  destruct (fetchURL_events f url raw w) as (calls & H & Hoff & Hkind).
  exists calls. split; [|split; assumption]. now rewrite H.
Qed.

Lemma fetchURL_same_state (f : HTTPFetcher) (url : string) (raw : bool) (w : World) :
  same_state (snd (fetchURL f url raw w)) w.
Proof.
  destruct (fetchURL_events f url raw w) as (calls & H & _). rewrite H.
  split; reflexivity.
Qed.

(** The events one call of [FetchURL] adds to the trace. *)
Lemma FetchURL_trace (f : HTTPFetcher) (req : FetchRequest) (w : World) :
  exists urls calls,
    trace (snd (FetchURL f req w))
    = trace w
      ++ (if metrics f
          then Metric (observability.RecordRobotsCheck (ReqURL req) "checking") :: nil
          else nil)
      ++ map RobotsTxtRequest urls
      ++ (if fst (robots_verdict f req w) then
            (if metrics f
             then Metric (observability.RecordRobotsCheck (ReqURL req) "allowed") :: nil
             else nil)
            ++ match invalidURL (httpClient f) (ReqURL req) with
               | Some _ => nil
               | None => ContentRequest (request_sent f (ReqURL req)) :: map Metric calls
               end
          else
            (if metrics f
             then Metric (observability.RecordRobotsCheck (ReqURL req) "disallowed")
                  :: Metric (observability.RecordRobotsBlocked (ReqURL req)) :: nil
             else nil))
    /\ (List.length urls <= 1)%nat
    /\ (metrics f = false -> calls = nil)
    /\ Forall (fun call =>
                 match call with
                 | observability.RecordRobotsCheck _ _
                 | observability.RecordRobotsBlocked _ => False
                 | _ => True
                 end) calls.
Proof.
  rewrite FetchURL_paths.
  destruct (robots_verdict_trace f req w) as (urls & Hv & Hl).
  destruct (robots_verdict f req w) as [allowed w1]. simpl in Hv. simpl fst.
  destruct allowed.
  - pose proof (record_trace f
      (observability.RecordRobotsCheck (ReqURL req) "allowed") w1) as Ha.
    set (w2 := snd (record f _ w1)) in *.
    destruct (fetchURL_trace f (ReqURL req) (Raw req) w2) as (calls & Hf & Hoff & Hk).
    exists urls, calls. split; [|auto].
    destruct (fetchURL f (ReqURL req) (Raw req) w2) as [[content err] w3].
    simpl in *. rewrite Hf, Ha, Hv. now rewrite <- !app_assoc.
  - exists urls, nil. split; [|auto].
    simpl. rewrite !record_trace, Hv.
    destruct (metrics f); simpl; now rewrite <- !app_assoc.
Qed.

End traces.

(** ** The transformer on a document with an article *)

(** X4: when readability extracts a non-empty article, only the article is
    converted: ProcessHTML returns its Markdown, or the article itself when
    the conversion fails, and nothing else of the document. *)
Theorem ProcessHTML_article_only (L : Libraries) (html article : string) (doc : Node L) :
  html_Parse L html = inl doc ->
  readability_FromDocument L doc = inl article ->
  article <> EmptyString ->
  ProcessHTML L html
  = match htmltomarkdown_ConvertString L article with
    | inl markdown => markdown
    | inr _ => article
    end.
Proof.
  intros Hp Hr Hne. unfold ProcessHTML. rewrite Hp, Hr.
  destruct (String.eqb_spec article EmptyString) as [->|_]; [congruence|].
  reflexivity.
Qed.

Lemma ProcessHTML_article_only_witness :
  ProcessHTML (fixtures.article_libs true) fixtures.page = "story"%string.
Proof.
  apply (ProcessHTML_article_only (fixtures.article_libs true) fixtures.page
           "<p>story</p>" fixtures.page).
  - reflexivity.
  - reflexivity.
  - discriminate.
Defined.

(** ** Requests and metrics of a fetch *)
Section fetch_effects.
Import nethttp fetcher.

Lemma content_requests_app (t1 t2 : list Event) :
  content_requests (t1 ++ t2) = content_requests t1 ++ content_requests t2.
Proof. apply omap_app. Qed.

Lemma content_requests_metrics (calls : list observability.MetricCall) :
  content_requests (map Metric calls) = nil.
Proof. induction calls; [reflexivity | exact IHcalls]. Qed.

Lemma content_requests_robots (urls : list string) :
  content_requests (map RobotsTxtRequest urls) = nil.
Proof. induction urls; [reflexivity | exact IHurls]. Qed.

Lemma metric_calls_app (t1 t2 : list Event) :
  metric_calls (t1 ++ t2) = metric_calls t1 ++ metric_calls t2.
Proof. apply omap_app. Qed.

Lemma metric_calls_robots (urls : list string) :
  metric_calls (map RobotsTxtRequest urls) = nil.
Proof. induction urls; [reflexivity | exact IHurls]. Qed.

Lemma robots_check_results_app (t1 t2 : list Event) :
  robots_check_results (t1 ++ t2)
  = robots_check_results t1 ++ robots_check_results t2.
Proof. apply omap_app. Qed.

Lemma robots_blocked_app (t1 t2 : list Event) :
  robots_blocked (t1 ++ t2) = robots_blocked t1 ++ robots_blocked t2.
Proof. apply omap_app. Qed.

Lemma robots_check_results_robots (urls : list string) :
  robots_check_results (map RobotsTxtRequest urls) = nil.
Proof. induction urls; [reflexivity | exact IHurls]. Qed.

Lemma robots_blocked_robots (urls : list string) :
  robots_blocked (map RobotsTxtRequest urls) = nil.
Proof. induction urls; [reflexivity | exact IHurls]. Qed.

Lemma no_robots_metrics (calls : list observability.MetricCall) :
  Forall (fun call =>
            match call with
            | observability.RecordRobotsCheck _ _
            | observability.RecordRobotsBlocked _ => False
            | _ => True
            end) calls ->
  robots_check_results (map Metric calls) = nil
  /\ robots_blocked (map Metric calls) = nil.
Proof.
  induction 1 as [|call calls Hc _ [IH1 IH2]]; [split; reflexivity|].
  destruct call; try contradiction; split; assumption.
Qed.

End fetch_effects.

(** X5: fetchURL calls the HTTP client exactly once when http.NewRequest
    accepts the URL, whatever the client hands back, and not at all
    otherwise: it never calls again after an error or a status other than
    200.  The request it hands over is a GET of the URL that carries the
    fetcher's User-Agent and the Accept header.  The requests the client
    sends by itself while it follows redirects are made inside that call
    and are not counted here.  The robots cache and the clock are left
    alone. *)
Theorem fetchURL_one_client_call (f : HTTPFetcher) (url : string) (raw : bool) (w : World) :
  content_requests (trace (snd (fetchURL f url raw w)))
  = content_requests (trace w) ++
    match invalidURL (httpClient f) url with
    | Some _ => nil
    | None => request_sent f url :: nil
    end
  /\ same_state (snd (fetchURL f url raw w)) w
  /\ Method (request_sent f url) = "GET"%string
  /\ URL (request_sent f url) = url
  /\ Header_Get (Header (request_sent f url)) "User-Agent" = fetcher.userAgent f
  /\ Header_Get (Header (request_sent f url)) "Accept"
     = "text/html,application/xhtml+xml,application/xml;q=0.9,*/*;q=0.8"%string.
Proof.
  split; [|split; [apply fetchURL_same_state|]].
  - destruct (fetchURL_trace f url raw w) as (calls & H & _). rewrite H.
    rewrite content_requests_app. f_equal.
    destruct (invalidURL (httpClient f) url); [reflexivity|].
    change (content_requests (ContentRequest (request_sent f url) :: map Metric calls))
      with (request_sent f url :: content_requests (map Metric calls)).
    now rewrite content_requests_metrics.
  - repeat split.
    all: unfold request_sent, Header_Get, Header_Set; simpl.
    all: try (rewrite lookup_insert_ne by discriminate).
    all: now rewrite lookup_insert_eq.
Qed.

(** X6: with metrics on, one call of FetchURL records the robots check
    twice, once as "checking" and once with the verdict, "allowed" or
    "disallowed"; it records the URL as blocked exactly when the verdict is
    disallowed. *)
Theorem FetchURL_robots_check_metrics (f : HTTPFetcher) (req : FetchRequest) (w : World) :
  metrics f = true ->
  robots_check_results (trace (snd (FetchURL f req w)))
  = robots_check_results (trace w)
    ++ "checking"%string
       :: (if fst (robots_verdict f req w) then "allowed" else "disallowed")%string
       :: nil
  /\ robots_blocked (trace (snd (FetchURL f req w)))
     = robots_blocked (trace w)
       ++ (if fst (robots_verdict f req w) then nil else ReqURL req :: nil).
Proof.
  intros Hm.
  destruct (FetchURL_trace f req w) as (urls & calls & H & _ & _ & Hk).
  rewrite H, Hm. clear H.
  destruct (no_robots_metrics calls Hk) as [Hc Hb].
  rewrite !robots_check_results_app, !robots_blocked_app.
  rewrite robots_check_results_robots, robots_blocked_robots.
  destruct (fst (robots_verdict f req w)).
  - rewrite !robots_check_results_app, !robots_blocked_app.
    destruct (invalidURL (httpClient f) (ReqURL req)).
    + split; reflexivity.
    + change (robots_check_results (ContentRequest (request_sent f (ReqURL req))
                                      :: map Metric calls))
        with (robots_check_results (map Metric calls)).
      change (robots_blocked (ContentRequest (request_sent f (ReqURL req))
                                :: map Metric calls))
        with (robots_blocked (map Metric calls)).
      rewrite Hc, Hb. split; reflexivity.
  - split; reflexivity.
Qed.

Lemma FetchURL_robots_check_metrics_witness :
  robots_check_results
    (trace (snd (FetchURL (scenario.fetcher_of false)
                   (scenario.request "https://example.com/private/page" false)
                   scenario.start)))
  = "checking"%string :: "disallowed"%string :: nil
  /\ robots_blocked
       (trace (snd (FetchURL (scenario.fetcher_of false)
                      (scenario.request "https://example.com/private/page" false)
                      scenario.start)))
     = "https://example.com/private/page"%string :: nil.
Proof.
  apply (FetchURL_robots_check_metrics (scenario.fetcher_of false)
           (scenario.request "https://example.com/private/page" false)
           scenario.start).
  reflexivity.
Defined.

(** ** Metrics do not steer the pipeline *)
Section transparency.
Import nethttp fetcher.

Lemma same_state_sym (w1 w2 : World) : same_state w1 w2 -> same_state w2 w1.
Proof. intros [H1 H2]. split; congruence. Qed.

Lemma same_state_trans (w1 w2 w3 : World) :
  same_state w1 w2 -> same_state w2 w3 -> same_state w1 w3.
Proof. intros [H1 H2] [H3 H4]. split; congruence. Qed.

Lemma same_state_after_events (t : list Event) (w : World) :
  same_state (after_events t w) w.
Proof. split; reflexivity. Qed.

(** The verdict is the one the checker gives on the untraced world. *)
Lemma robots_verdict_untraced (f : HTTPFetcher) (req : FetchRequest) (w : World) :
  exists t,
    robots_verdict f req w
    = (fst (robots.IsAllowed (robotsChecker f) (ReqURL req) (untraced w)),
       after_events t
         (snd (robots.IsAllowed (robotsChecker f) (ReqURL req) (untraced w)))).
Proof.
  unfold robots_verdict, mbind, M_bind.
  destruct (record f _ w) as [[] w0] eqn:Hr.
  assert (Hs : same_state w0 w).
  { pose proof (record_same_state f
      (observability.RecordRobotsCheck (ReqURL req) "checking") w) as H.
    now rewrite Hr in H. }
  exists (trace w0).
  assert (Hw0 : w0 = after_events (trace w0) (untraced w)).
  { destruct Hs as [Hc Hn]. destruct w0 as [t0 c0 n0]. simpl in *. subst.
    unfold after_events, untraced. simpl. now rewrite app_nil_r. }
  rewrite Hw0 at 1. rewrite IsAllowed_after_events. reflexivity.
Qed.

Lemma fetchURL_result_set_metrics (enabled : bool) (f : HTTPFetcher) (url : string)
  (raw : bool) (w1 w2 : World) :
  fst (fetchURL (set_metrics enabled f) url raw w1) = fst (fetchURL f url raw w2).
Proof.
  rewrite !fetchURL_paths.
  change (httpClient (set_metrics enabled f)) with (httpClient f).
  change (processor (set_metrics enabled f)) with (processor f).
  change (request_sent (set_metrics enabled f) url) with (request_sent f url).
  destruct (invalidURL (httpClient f) url); [reflexivity|]. cbv zeta.
  destruct (RoundTrip _ _) as [resp|]; [|reflexivity].
  destruct (negb (StatusCode resp =? StatusOK)); [reflexivity|].
  destruct (Body resp) as [body|]; [|reflexivity].
  now destruct (negb raw && _).
Qed.

(** The content requests of one call of [FetchURL]: one when the URL is
    allowed and accepted, none otherwise. *)
Lemma FetchURL_content_requests (f : HTTPFetcher) (req : FetchRequest) (w : World) :
  content_requests (trace (snd (FetchURL f req w)))
  = content_requests (trace w) ++
    (if fst (robots_verdict f req w) then
       match invalidURL (httpClient f) (ReqURL req) with
       | Some _ => nil
       | None => request_sent f (ReqURL req) :: nil
       end
     else nil).
Proof.
  destruct (FetchURL_trace f req w) as (urls & calls & H & _).
  rewrite H. rewrite !content_requests_app, content_requests_robots.
  assert (Hrec : forall call,
             content_requests (if metrics f then Metric call :: nil else nil) = nil)
    by (intros call; now destruct (metrics f)).
  rewrite Hrec. simpl. f_equal.
  destruct (fst (robots_verdict f req w)).
  - rewrite content_requests_app, Hrec. simpl.
    destruct (invalidURL (httpClient f) (ReqURL req)); [reflexivity|].
    change (content_requests (ContentRequest (request_sent f (ReqURL req))
                                :: map Metric calls))
      with (request_sent f (ReqURL req) :: content_requests (map Metric calls)).
    now rewrite content_requests_metrics.
  - now destruct (metrics f).
Qed.

Lemma FetchURL_state (f : HTTPFetcher) (req : FetchRequest) (w : World) :
  same_state (snd (FetchURL f req w)) (snd (robots_verdict f req w)).
Proof.
  rewrite FetchURL_paths. destruct (robots_verdict f req w) as [[|] w1]; simpl.
  - pose proof (fetchURL_same_state f (ReqURL req) (Raw req)
      (snd (record f (observability.RecordRobotsCheck (ReqURL req) "allowed") w1)))
      as H.
    destruct (fetchURL f (ReqURL req) (Raw req) _) as [[content err] w2].
    simpl in *. eapply same_state_trans; [exact H|]. apply record_same_state.
  - eapply same_state_trans; apply record_same_state.
Qed.

(** The result of [FetchURL] from the verdict and the result of
    [fetchURL], in whatever world the latter is run. *)
Lemma FetchURL_result (f : HTTPFetcher) (req : FetchRequest) (w w' : World) :
  fst (FetchURL f req w)
  = if fst (robots_verdict f req w)
    then paginate req (fst (fetchURL f (ReqURL req) (Raw req) w'))
    else Returned (EmptyString,
           Some ("access to " +:+ ReqURL req +:+ " is disallowed by robots.txt")).
Proof.
  rewrite FetchURL_paths. destruct (robots_verdict f req w) as [[|] w1]; [|reflexivity].
  simpl fst at 2.
  rewrite (fetchURL_result_fixed f (ReqURL req) (Raw req) w'
             (snd (record f (observability.RecordRobotsCheck (ReqURL req) "allowed") w1))).
  destruct (fetchURL f (ReqURL req) (Raw req) _) as [[content [e|]] w2]; reflexivity.
Qed.

End transparency.

(** X7: whether the metrics pointer is set changes nothing but the metric
    calls: FetchURL returns the same result, sends the same content
    requests and leaves the same robots cache; without metrics it records
    no metric at all. *)
Theorem FetchURL_metrics_transparent (f : HTTPFetcher) (req : FetchRequest) (w : World) :
  fst (FetchURL (set_metrics true f) req w) = fst (FetchURL (set_metrics false f) req w)
  /\ content_requests (trace (snd (FetchURL (set_metrics true f) req w)))
     = content_requests (trace (snd (FetchURL (set_metrics false f) req w)))
  /\ same_state (snd (FetchURL (set_metrics true f) req w))
       (snd (FetchURL (set_metrics false f) req w))
  /\ metric_calls (trace (snd (FetchURL (set_metrics false f) req w)))
     = metric_calls (trace w).
Proof.
  destruct (robots_verdict_untraced (set_metrics true f) req w) as (t1 & H1).
  destruct (robots_verdict_untraced (set_metrics false f) req w) as (t0 & H0).
  change (robotsChecker (set_metrics true f)) with (robotsChecker f) in H1.
  change (robotsChecker (set_metrics false f)) with (robotsChecker f) in H0.
  split; [|split; [|split]].
  - rewrite (FetchURL_result (set_metrics true f) req w w).
    rewrite (FetchURL_result (set_metrics false f) req w w).
    rewrite H1, H0. cbn [fst].
    rewrite (fetchURL_result_set_metrics true f (ReqURL req) (Raw req) w w).
    rewrite (fetchURL_result_set_metrics false f (ReqURL req) (Raw req) w w).
    reflexivity.
  - rewrite !FetchURL_content_requests, H1, H0. reflexivity.
  - eapply same_state_trans; [apply FetchURL_state|].
    apply same_state_sym.
    eapply same_state_trans; [apply FetchURL_state|].
    rewrite H1, H0. simpl.
    eapply same_state_trans; [apply same_state_after_events|].
    apply same_state_sym, same_state_after_events.
  - destruct (FetchURL_trace (set_metrics false f) req w)
      as (urls & calls & H & _ & Hoff & _).
    rewrite H. rewrite (Hoff eq_refl). simpl.
    rewrite !metric_calls_app, metric_calls_robots.
    destruct (fst (robots_verdict (set_metrics false f) req w)).
    + destruct (invalidURL _ _); simpl; now rewrite app_nil_r.
    + simpl. now rewrite app_nil_r.
Qed.

(** X8: on a 200 response with a readable body and raw false, a
    Content-Type that has text/html anywhere in it, whatever stands before
    or after, makes fetchURL return what ProcessHTML makes of the body. *)
Theorem fetchURL_html_is_processed (f : HTTPFetcher) (url : string) (w : World)
  (resp : Response) (body pre post : string) :
  invalidURL (httpClient f) url = None ->
  RoundTrip (httpClient f) (request_sent f url) = inl resp ->
  StatusCode resp = 200 ->
  Body resp = inl body ->
  Header_Get (RespHeader resp) "Content-Type" = pre +:+ "text/html" +:+ post ->
  fst (fetchURL f url false w) = (ProcessHTML (processor f) body, None).
Proof.
  intros Hu Hr Hc Hb Ht. rewrite fetchURL_paths, Hu. cbv zeta. rewrite Hr, Hc, Hb.
  assert (Hin : Contains (Header_Get (RespHeader resp) "Content-Type") "text/html" = true)
    by (apply Contains_append; eauto).
  rewrite Hin. reflexivity.
Qed.

Lemma fetchURL_html_is_processed_witness :
  fst (fetchURL (scenario.fetcher_of false) "https://example.com/public/page" false
         scenario.start)
  = ("hi"%string, None).
Proof.
  apply (fetchURL_html_is_processed (scenario.fetcher_of false)
           "https://example.com/public/page" scenario.start
           {| StatusCode := 200; Status := "200 OK";
              RespHeader := scenario.html_header; Body := inl "<p>hi</p>"%string |}
           "<p>hi</p>" "" "; charset=utf-8").
  - reflexivity.
  - vm_compute. reflexivity.
  - reflexivity.
  - reflexivity.
  - vm_compute. reflexivity.
Defined.

(** * Metrics *)

(** ** Indexing *)
Section indexing.
Import gotext.

Lemma get_drop_bytes (n : nat) (s : string) :
  String.get n s = match drop_bytes n s with
                   | String c _ => Some c
                   | EmptyString => None
                   end.
Proof.
  revert s. induction n as [|n IH]; intros [|c s]; simpl; auto.
Qed.

Lemma drop_bytes_S (n : nat) (s : string) :
  drop_bytes (S n) s = match drop_bytes n s with
                       | String _ rest => rest
                       | EmptyString => EmptyString
                       end.
Proof.
  revert s. induction n as [|n IH]; intros [|c s]; try reflexivity.
  exact (IH s).
Qed.

Lemma take_bytes_until_delimiter (s : string) :
  take_bytes (String.length (until_delimiter s)) s = until_delimiter s.
Proof.
  induction s as [|c s IH]; [reflexivity|]. simpl.
  destruct (metrics.is_delimiter c); [reflexivity|]. simpl. now rewrite IH.
Qed.

Lemma length_until_delimiter (s : string) :
  (String.length (until_delimiter s) <= String.length s)%nat.
Proof.
  induction s as [|c s IH]; simpl; [lia|].
  destruct (metrics.is_delimiter c); simpl; lia.
Qed.

Lemma until_delimiter_free (s : string) : delimiter_free (until_delimiter s) = true.
Proof.
  induction s as [|c s IH]; [reflexivity|]. simpl.
  destruct (metrics.is_delimiter c) eqn:Hc; [reflexivity|]. simpl. now rewrite Hc.
Qed.

(** The loop of [extractHost] stops where the delimiter-free prefix of the
    rest of the URL ends. *)
Lemma host_end_until_delimiter (urlStr : string) (steps : nat) (i : Z) :
  0 <= i -> i + Z.of_nat steps = len urlStr ->
  metrics.host_end urlStr i steps
  = Returned (i + len (until_delimiter (drop_bytes (Z.to_nat i) urlStr))).
Proof.
  revert i. induction steps as [|steps IH]; intros i Hi Hlen.
  - simpl. rewrite drop_bytes_all by (unfold len in Hlen; lia).
    f_equal. unfold len at 2. simpl. lia.
  - simpl. unfold byte_at.
    destruct (Z.ltb_spec i 0); [lia|].
    destruct (Z.leb_spec (len urlStr) i); [lia|]. simpl.
    rewrite get_drop_bytes.
    assert (Hnext : drop_bytes (Z.to_nat (i + 1)) urlStr
                    = match drop_bytes (Z.to_nat i) urlStr with
                      | String _ rest => rest
                      | EmptyString => EmptyString
                      end).
    { replace (Z.to_nat (i + 1)) with (S (Z.to_nat i)) by lia. apply drop_bytes_S. }
    destruct (drop_bytes (Z.to_nat i) urlStr) as [|c rest] eqn:Hd.
    + pose proof (length_drop_bytes (Z.to_nat i) urlStr) as Hl.
      rewrite Hd in Hl. simpl in Hl. unfold len in *. lia.
    + unfold mbind, outcome_bind. simpl.
      destruct (metrics.is_delimiter c).
      * f_equal. unfold len. simpl. lia.
      * rewrite IH by lia. rewrite Hnext. f_equal. unfold len. simpl. lia.
Qed.

Lemma Index_from_cons (i : Z) (c : ascii) (s substr : string) :
  Index_from i (String c s) substr
  = if HasPrefix (String c s) substr then i else Index_from (i + 1) s substr.
Proof. reflexivity. Qed.

(** [strings.Index] answers -1 or an index at which the substring fits. *)
Lemma Index_from_range (s substr : string) (i : Z) :
  Index_from i s substr = -1
  \/ (i <= Index_from i s substr
      /\ Index_from i s substr - i + len substr <= len s).
Proof.
  revert i. induction s as [|c s IH]; intros i.
  - simpl. destruct substr; simpl; [right; unfold len; simpl; lia | now left].
  - rewrite Index_from_cons.
    destruct (HasPrefix (String c s) substr) eqn:Hp.
    + right. split; [lia|]. apply HasPrefix_append in Hp. destruct Hp as [rest Hp].
      rewrite Hp, len_append. pose proof (len_nonneg rest). lia.
    + destruct (IH (i + 1)) as [H|[H1 H2]]; [now left|].
      right. unfold len in *. simpl String.length. lia.
Qed.

(** A scheme without a colon puts the first [://] right after itself. *)
Lemma Index_after_scheme (scheme rest : string) (i : Z) :
  colon_free scheme = true ->
  Index_from i (scheme +:+ "://" +:+ rest) "://" = i + len scheme.
Proof.
  revert i. induction scheme as [|c scheme IH]; intros i Hfree.
  - change (Index_from i (String ":" (String "/" (String "/" rest))) "://" = i + 0).
    rewrite Index_from_cons. simpl.
    replace (HasPrefix rest EmptyString) with true by (now destruct rest). lia.
  - simpl in Hfree. apply andb_true_iff in Hfree. destruct Hfree as [Hc Hfree].
    rewrite append_String.
    rewrite Index_from_cons.
    assert (Hp : HasPrefix (String c (scheme +:+ "://" +:+ rest)) "://" = false).
    { simpl. destruct (Ascii.eqb c ":"); [discriminate | reflexivity]. }
    rewrite Hp, IH by exact Hfree. unfold len. simpl String.length. lia.
Qed.

End indexing.

(** ** Host labels, [extractHost] *)
Section host_labels.
Import gotext.

Lemma drop_bytes_append (a b : string) :
  drop_bytes (String.length a) (a +:+ b) = b.
Proof. induction a as [|c a IH]; [reflexivity | exact IH]. Qed.

Lemma until_delimiter_append (host rest : string) :
  delimiter_free host = true -> at_delimiter rest = true ->
  until_delimiter (host +:+ rest) = host.
Proof.
  intros Hh Hr. induction host as [|c host IH].
  - destruct rest as [|r rest]; [reflexivity|].
    change (EmptyString +:+ String r rest) with (String r rest).
    simpl in *. now rewrite Hr.
  - simpl in Hh. apply andb_true_iff in Hh. destruct Hh as [Hc Hh].
    rewrite append_String. simpl.
    destruct (metrics.is_delimiter c); [discriminate|]. now rewrite IH.
Qed.

(** What [extractHost] computes: the label read off the delimiter-free
    bytes that follow the first [://], or the start of the URL. *)
Lemma extractHost_label (urlStr : string) :
  metrics.extractHost urlStr =
  Returned
    (if String.eqb urlStr EmptyString then "unknown"%string
     else
       let idx := Index urlStr "://" in
       let start := if negb (idx =? -1) then idx + 3 else 0 in
       let host := until_delimiter (drop_bytes (Z.to_nat start) urlStr) in
       if String.eqb host EmptyString then "unknown"%string
       else if len host >? 100 then "other"%string
       else host).
Proof.
  unfold metrics.extractHost.
  destruct (String.eqb urlStr EmptyString); [reflexivity|]. cbv zeta.
  set (idx := Index urlStr "://").
  set (start := if negb (idx =? -1) then idx + 3 else 0).
  pose proof (len_nonneg urlStr) as Hl.
  assert (Hstart : 0 <= start <= len urlStr).
  { subst start idx. unfold Index.
    destruct (Index_from_range urlStr "://" 0) as [H|[H1 H2]].
    - rewrite H. simpl. lia.
    - change (len "://") with 3 in H2.
      destruct (Z.eqb_spec (Index_from 0 urlStr "://") (-1)); simpl; lia. }
  rewrite (host_end_until_delimiter urlStr _ start) by lia.
  unfold mbind, outcome_bind.
  set (rest := drop_bytes (Z.to_nat start) urlStr).
  set (host := until_delimiter rest).
  assert (Hrest : len rest = len urlStr - start).
  { subst rest. unfold len. rewrite length_drop_bytes. unfold len in *. lia. }
  assert (Hhost : 0 <= len host <= len rest).
  { subst host. pose proof (length_until_delimiter rest). unfold len. lia. }
  destruct (String.eqb_spec host EmptyString) as [He|Hne].
  - rewrite He. change (len EmptyString) with 0.
    destruct (Z.geb_spec start (start + 0)); [reflexivity | lia].
  - assert (Hpos : 0 < len host).
    { destruct host; [congruence|]. unfold len. simpl. lia. }
    destruct (Z.geb_spec start (start + len host)); [lia|].
    unfold slice.
    destruct (Z.ltb_spec start 0); [lia|].
    destruct (Z.ltb_spec (start + len host) start); [lia|].
    destruct (Z.ltb_spec (len urlStr) (start + len host)); [lia|]. simpl.
    replace (Z.to_nat (start + len host - start)) with (String.length host)
      by (unfold len; lia).
    fold rest. subst host. rewrite take_bytes_until_delimiter.
    now destruct (len (until_delimiter rest) >? 100).
Qed.

End host_labels.

Lemma extractHost_short_label (urlStr : string) :
  exists host,
    metrics.extractHost urlStr = Returned host
    /\ 1 <= len host <= 100
    /\ delimiter_free host = true.
Proof.
  rewrite extractHost_label. eexists. split; [reflexivity|].
  destruct (String.eqb urlStr EmptyString); [split; [vm_compute; split; discriminate | reflexivity]|].
  cbv zeta.
  set (host := until_delimiter _).
  destruct (String.eqb_spec host EmptyString) as [He|Hne];
    [split; [vm_compute; split; discriminate | reflexivity]|].
  destruct (Z.gtb_spec (len host) 100);
    [split; [vm_compute; split; discriminate | reflexivity]|].
  split.
  - split; [|lia]. destruct host; [congruence|]. unfold len. simpl. lia.
  - apply until_delimiter_free.
Qed.

(** X9: extractHost never panics, and the label it returns is never empty,
    has at most 100 bytes and holds none of the bytes /, : and ?. *)
Theorem extractHost_label_bounded (urlStr : string) :
  exists host,
    metrics.extractHost urlStr = Returned host
    /\ 1 <= len host <= 100
    /\ delimiter_free host = true.
Proof. exact (extractHost_short_label urlStr). Qed.

(** X10: for a URL made of a scheme without a colon, [://], a non-empty host
    without /, : or ?, and then nothing or something that begins with one of
    those three, extractHost returns the host, leaving out a port, a path
    and a query; a host of more than 100 bytes becomes "other". *)
Theorem extractHost_of_url (scheme host rest : string) :
  colon_free scheme = true ->
  delimiter_free host = true ->
  host <> EmptyString ->
  at_delimiter rest = true ->
  metrics.extractHost (scheme +:+ "://" +:+ host +:+ rest)
  = Returned (if len host >? 100 then "other"%string else host).
Proof.
  intros Hs Hh Hne Hr. rewrite extractHost_label.
  assert (Hnonempty : String.eqb (scheme +:+ "://" +:+ host +:+ rest) EmptyString = false).
  { destruct scheme; reflexivity. }
  rewrite Hnonempty. cbv zeta. unfold gotext.Index.
  rewrite Index_after_scheme by exact Hs.
  pose proof (len_nonneg scheme) as Hl.
  destruct (Z.eqb_spec (0 + len scheme) (-1)); [lia|]. simpl negb. cbv iota.
  replace (Z.to_nat (0 + len scheme + 3)) with (String.length scheme + 3)%nat
    by (unfold len; lia).
  rewrite drop_bytes_add, drop_bytes_append.
  change (drop_bytes 3 ("://" +:+ host +:+ rest)) with (host +:+ rest).
  rewrite until_delimiter_append by assumption.
  destruct (String.eqb_spec host EmptyString); [contradiction | reflexivity].
Qed.

Lemma extractHost_of_url_witness :
  metrics.extractHost "https://example.com:8080/path?q=1" = Returned "example.com"%string.
Proof.
  apply (extractHost_of_url "https" "example.com" ":8080/path?q=1").
  - reflexivity.
  - reflexivity.
  - discriminate.
  - reflexivity.
Defined.

(** ** The recorders *)

(** X11: no method of Metrics panics; every url_host and domain attribute
    it attaches has between 1 and 100 bytes; and every ratio it records has
    a positive denominator. *)
Theorem metrics_run_bounded (call : metrics.Call) :
  exists ms,
    metrics.run call = Returned ms
    /\ Forall (fun m => Forall (fun h => 1 <= len h <= 100) (host_labels m)) ms
    /\ Forall (fun m => match metrics.value m with
                        | metrics.Quotient _ d => 0 < d
                        | _ => True
                        end) ms.
Proof.
  destruct call; simpl metrics.run;
    try match goal with
        | |- context [metrics.extractHost ?u] =>
            destruct (extractHost_short_label u) as (h & Hh & Hb & _); rewrite Hh
        end;
    unfold mbind, outcome_bind, mret, outcome_ret;
    repeat match goal with
           | |- context [if ?b then _ else _] => destruct b eqn:?
           end;
    try match goal with
        | H : (_ >? _) = true |- _ => apply Z.gtb_lt in H
        end;
    (eexists; split; [reflexivity|]; split; repeat constructor; simpl; auto; lia).
Qed.

(** X12: ClassifyNetworkError answers "none" for the nil error only; a
    message that mentions a timeout is a timeout, whatever else it
    mentions; a message with none of the keywords is "other". *)
Theorem ClassifyNetworkError_classes (err : option string) :
  (metrics.ClassifyNetworkError err = "none"%string <-> err = None)
  /\ (forall pre post,
        metrics.ClassifyNetworkError (Some (pre +:+ "timeout" +:+ post))
        = "timeout"%string)
  /\ In (metrics.ClassifyNetworkError err)
       ("none" :: "timeout" :: "connection_refused" :: "dns_failure" :: "tls_error"
        :: "connection_reset" :: "broken_pipe" :: "unexpected_eof" :: "other"
        :: nil)%string.
Proof.
  split; [|split].
  - split; [|intros ->; reflexivity].
    destruct err as [msg|]; [|reflexivity]. simpl.
    repeat match goal with
           | |- context [if ?b then _ else _] => destruct b
           end; discriminate.
  - intros pre post. simpl.
    assert (H : Contains (pre +:+ "timeout" +:+ post) "timeout" = true)
      by (apply Contains_append; eauto).
    now rewrite H.
  - destruct err as [msg|]; simpl; [|auto].
    repeat match goal with
           | |- context [if ?b then _ else _] => destruct b
           end; simpl; auto 12.
Qed.

(** * Configuration *)

(** X13: whatever the flags and the environment, the configuration
    ParseFlags returns has a non-empty user agent, service name and service
    version, and its metrics port is 0 only when its port is 0. *)
Theorem ParseFlags_never_blank (cl : config.CommandLine) (env : gmap string string) :
  config.UserAgent (config.ParseFlags cl env) <> EmptyString
  /\ config.OTelServiceName (config.ParseFlags cl env) <> EmptyString
  /\ config.OTelServiceVersion (config.ParseFlags cl env) <> EmptyString
  /\ (config.MetricsPort (config.ParseFlags cl env) = 0 ->
      config.Port (config.ParseFlags cl env) = 0).
Proof.
  assert (Hblank : forall x d : string,
             d <> EmptyString -> (if String.eqb x EmptyString then d else x) <> EmptyString).
  { intros x d Hd. now destruct (String.eqb_spec x EmptyString). }
  unfold config.ParseFlags. cbv zeta. simpl.
  split; [|split; [|split]]; try (apply Hblank; discriminate).
  match goal with
  | |- (if ?m =? 0 then _ else _) = 0 -> _ => destruct (Z.eqb_spec m 0)
  end; [auto | contradiction].
Qed.

(** X14: a MCP_PORT or METRICS_PORT that strconv.Atoi rejects is ignored
    without a trace: the configuration is the one obtained with the
    variable unset. *)
Theorem ParseFlags_ignores_bad_port (cl : config.CommandLine) (env : gmap string string)
  (v : string) :
  gotext.Atoi v = None ->
  config.ParseFlags cl (<["MCP_PORT"%string := v]> env)
  = config.ParseFlags cl (delete "MCP_PORT"%string env)
  /\ config.ParseFlags cl (<["METRICS_PORT"%string := v]> env)
     = config.ParseFlags cl (delete "METRICS_PORT"%string env).
Proof.
  intros Hv. unfold config.ParseFlags, config.parseConfig, config.override.
  cbv zeta. simpl.
  split.
  - rewrite !lookup_insert_eq, !lookup_delete_eq, Hv.
    rewrite !lookup_insert_ne by discriminate.
    rewrite !lookup_delete_ne by discriminate.
    reflexivity.
  - rewrite !lookup_insert_eq, !lookup_delete_eq, Hv.
    rewrite !lookup_insert_ne by discriminate.
    rewrite !lookup_delete_ne by discriminate.
    reflexivity.
Qed.

Lemma ParseFlags_ignores_bad_port_witness :
  config.ParseFlags config.no_flags (<["MCP_PORT"%string := "80a"%string]> ∅)
  = config.ParseFlags config.no_flags (delete "MCP_PORT"%string ∅).
Proof.
  apply (proj1 (ParseFlags_ignores_bad_port config.no_flags ∅ "80a" eq_refl)).
Defined.

(** X15: the environment wins over the command line.  TRANSPORT, a
    MCP_PORT that parses and OTEL_EXPORTER_OTLP_ENDPOINT replace the flag;
    and once ENABLE_PROMETHEUS, ENABLE_OTEL_METRICS or ENABLE_OTEL_TRACING
    is set, the feature is on exactly when the value is the string "true",
    whatever the flag says. *)
Theorem ParseFlags_environment_wins (cl : config.CommandLine) (env : gmap string string) :
  (forall t, env !! "TRANSPORT"%string = Some t ->
             config.Transport (config.ParseFlags cl env) = t)
  /\ (forall p n, env !! "MCP_PORT"%string = Some p -> gotext.Atoi p = Some n ->
                  config.Port (config.ParseFlags cl env) = n)
  /\ (forall e, env !! "OTEL_EXPORTER_OTLP_ENDPOINT"%string = Some e ->
                config.OTelEndpoint (config.ParseFlags cl env) = e)
  /\ (forall v, env !! "ENABLE_PROMETHEUS"%string = Some v ->
                config.EnablePrometheus (config.ParseFlags cl env)
                = String.eqb v "true")
  /\ (forall v, env !! "ENABLE_OTEL_METRICS"%string = Some v ->
                config.EnableOTelMetrics (config.ParseFlags cl env)
                = String.eqb v "true")
  /\ (forall v, env !! "ENABLE_OTEL_TRACING"%string = Some v ->
                config.EnableOTelTracing (config.ParseFlags cl env)
                = String.eqb v "true").
Proof.
  unfold config.ParseFlags, config.parseConfig, config.override. cbv zeta. simpl.
  repeat split; intros.
  all: repeat match goal with
              | H : _ !! _ = Some _ |- _ => rewrite H; clear H
              | H : gotext.Atoi _ = Some _ |- _ => rewrite H; clear H
              end; reflexivity.
Qed.

Lemma ParseFlags_environment_wins_witness :
  config.EnablePrometheus
    (config.ParseFlags
       {| config.flag_transport := Some "sse"%string; config.flag_port := Some 9000;
          config.flag_user_agent := None; config.flag_ignore_robots_txt := None;
          config.flag_proxy_url := None; config.flag_enable_otel_metrics := None;
          config.flag_enable_otel_tracing := None;
          config.flag_otel_service_name := None;
          config.flag_otel_service_version := None; config.flag_otel_endpoint := None;
          config.flag_enable_prometheus := Some true;
          config.flag_metrics_port := None |}
       (<["ENABLE_PROMETHEUS"%string := "1"%string]> ∅))
  = false.
Proof.
  refine (proj1 (proj2 (proj2 (proj2 (ParseFlags_environment_wins _ _)))) "1"%string _).
  reflexivity.
Defined.

(** * Telemetry *)

Lemma Setup_success (sdk : otel.SDK) (obs : otel.ObservabilityConfig)
  (g g' : otel.Globals) (tel : otel.Telemetry) :
  otel.Setup sdk obs g = (inl tel, g') ->
  let endpoint :=
    if String.eqb (otel.Endpoint obs) EmptyString then "localhost:4318"%string
    else otel.Endpoint obs in
  otel.TracerProvider tel
  = (if otel.EnableTracing obs
     then Some {| otel.signal := otel.Traces; otel.exporterEndpoint := endpoint |}
     else None)
  /\ otel.MeterProvider tel
     = (if otel.EnableMetrics obs
        then Some {| otel.signal := otel.Metrics; otel.exporterEndpoint := endpoint |}
        else None)
  /\ otel.shutdownFuncs tel
     = option_list (otel.TracerProvider tel) ++ option_list (otel.MeterProvider tel)
  /\ endpoint <> EmptyString.
Proof.
  intros H endpoint.
  assert (He : endpoint <> EmptyString).
  { subst endpoint. now destruct (String.eqb_spec (otel.Endpoint obs) EmptyString). }
  unfold otel.Setup, otel.setupTracing, otel.setupMetrics in H.
  fold endpoint in H.
  destruct (otel.resource_New sdk _ _); [discriminate|].
  destruct (otel.EnableTracing obs), (otel.EnableMetrics obs);
    repeat match type of H with
           | context [otel.exporter_New sdk ?s ?e] =>
               destruct (otel.exporter_New sdk s e); try discriminate
           end;
    inversion H; subst; simpl; auto.
Qed.

(** X16: when Setup succeeds, the telemetry has a tracer provider exactly
    when tracing is enabled and a meter provider exactly when metrics are;
    it holds one shutdown function per provider, the tracer's first; and
    every exporter sends to the configured endpoint, or to localhost:4318
    when none is configured. *)
Theorem Setup_providers (sdk : otel.SDK) (obs : otel.ObservabilityConfig)
  (g g' : otel.Globals) (tel : otel.Telemetry) :
  otel.Setup sdk obs g = (inl tel, g') ->
  let endpoint :=
    if String.eqb (otel.Endpoint obs) EmptyString then "localhost:4318"%string
    else otel.Endpoint obs in
  otel.TracerProvider tel
  = (if otel.EnableTracing obs
     then Some {| otel.signal := otel.Traces; otel.exporterEndpoint := endpoint |}
     else None)
  /\ otel.MeterProvider tel
     = (if otel.EnableMetrics obs
        then Some {| otel.signal := otel.Metrics; otel.exporterEndpoint := endpoint |}
        else None)
  /\ otel.shutdownFuncs tel
     = option_list (otel.TracerProvider tel) ++ option_list (otel.MeterProvider tel)
  /\ endpoint <> EmptyString.
Proof. exact (Setup_success sdk obs g g' tel). Qed.

Lemma Setup_providers_witness :
  otel.shutdownFuncs
    {| otel.TracerProvider :=
         Some {| otel.signal := otel.Traces; otel.exporterEndpoint := "localhost:4318" |};
       otel.MeterProvider :=
         Some {| otel.signal := otel.Metrics; otel.exporterEndpoint := "localhost:4318" |};
       otel.shutdownFuncs :=
         {| otel.signal := otel.Traces; otel.exporterEndpoint := "localhost:4318" |}
         :: {| otel.signal := otel.Metrics; otel.exporterEndpoint := "localhost:4318" |}
         :: nil |}
  = {| otel.signal := otel.Traces; otel.exporterEndpoint := "localhost:4318" |}
    :: {| otel.signal := otel.Metrics; otel.exporterEndpoint := "localhost:4318" |}
    :: nil.
Proof.
  refine (proj1 (proj2 (proj2
    (Setup_providers sound_sdk
       {| otel.ServiceName := "fetch-server"; otel.ServiceVersion := "1.0.0";
          otel.Endpoint := ""; otel.EnableMetrics := true; otel.EnableTracing := true |}
       otel.no_globals
       {| otel.globalTracerProvider :=
            Some {| otel.signal := otel.Traces; otel.exporterEndpoint := "localhost:4318" |};
          otel.globalMeterProvider :=
            Some {| otel.signal := otel.Metrics; otel.exporterEndpoint := "localhost:4318" |};
          otel.traceContextPropagation := true |}
       _ _)))).
  reflexivity.
Defined.

(** X17: when tracing is set up and the metric exporter then fails, Setup
    returns the error and no telemetry, although it has already installed
    the tracer provider in the globals: no shutdown function for that
    provider reaches the caller. *)
Theorem Setup_metrics_failure_after_tracing (sdk : otel.SDK)
  (obs : otel.ObservabilityConfig) (g : otel.Globals) (e : string) :
  otel.EnableTracing obs = true ->
  otel.EnableMetrics obs = true ->
  otel.resource_New sdk (otel.ServiceName obs) (otel.ServiceVersion obs) = None ->
  (forall endpoint, otel.exporter_New sdk otel.Traces endpoint = None) ->
  (forall endpoint, otel.exporter_New sdk otel.Metrics endpoint = Some e) ->
  exists tracerProvider,
    otel.Setup sdk obs g
    = (inr ("failed to setup metrics: failed to create metric exporter: " +:+ e),
       {| otel.globalTracerProvider := Some tracerProvider;
          otel.globalMeterProvider := otel.globalMeterProvider g;
          otel.traceContextPropagation := true |})
    /\ otel.signal tracerProvider = otel.Traces.
Proof.
  intros Ht Hm Hr Htr Hme. unfold otel.Setup, otel.setupTracing, otel.setupMetrics.
  rewrite Hr, Ht, Hm, Htr, Hme. eexists. split; reflexivity.
Qed.

Lemma Setup_metrics_failure_after_tracing_witness :
  exists tracerProvider,
    otel.Setup
      {| otel.resource_New := fun _ _ => None;
         otel.exporter_New := fun s _ =>
           match s with otel.Traces => None | otel.Metrics => Some "no route"%string end;
         otel.provider_Shutdown := fun _ => None |}
      {| otel.ServiceName := "fetch-server"; otel.ServiceVersion := "1.0.0";
         otel.Endpoint := "collector:4318"; otel.EnableMetrics := true;
         otel.EnableTracing := true |}
      otel.no_globals
    = (inr ("failed to setup metrics: failed to create metric exporter: "
            +:+ "no route"),
       {| otel.globalTracerProvider := Some tracerProvider;
          otel.globalMeterProvider := None;
          otel.traceContextPropagation := true |})
    /\ otel.signal tracerProvider = otel.Traces.
Proof.
  apply (Setup_metrics_failure_after_tracing
           {| otel.resource_New := fun _ _ => None;
              otel.exporter_New := fun s _ =>
                match s with otel.Traces => None | otel.Metrics => Some "no route"%string end;
              otel.provider_Shutdown := fun _ => None |}
           {| otel.ServiceName := "fetch-server"; otel.ServiceVersion := "1.0.0";
              otel.Endpoint := "collector:4318"; otel.EnableMetrics := true;
              otel.EnableTracing := true |}
           otel.no_globals "no route"); reflexivity.
Defined.

(** X18: Shutdown of the server calls every shutdown function of the
    telemetry once, in order, going on after a failure, and returns no
    error, whatever the shutdown functions return. *)
Theorem Shutdown_runs_all (p : server.Platform) (fs : server.FetchServer) :
  snd (server.Shutdown p fs) = None
  /\ map fst (fst (server.Shutdown p fs))
     = match server.telemetry fs with
       | Some t => otel.shutdownFuncs t
       | None => nil
       end
  /\ Forall (fun call => snd call = otel.provider_Shutdown (server.sdk p) (fst call))
       (fst (server.Shutdown p fs)).
Proof.
  unfold server.Shutdown. destruct (server.telemetry fs) as [t|]; [|repeat split; auto].
  unfold otel.Shutdown. simpl. split; [reflexivity|].
  induction (otel.shutdownFuncs t) as [|f funcs [IH1 IH2]]; [split; auto|].
  simpl. split; [now rewrite IH1 | constructor; auto].
Qed.

(** X19: NewMetrics returns the metrics exactly when the meter creates all
    26 instruments, whose names are pairwise different; otherwise its error
    names the first instrument, in the order of creation, that failed. *)
Theorem NewMetrics_first_failure (meter : string -> option string) :
  NoDup otel.instrument_names
  /\ List.length otel.instrument_names = 26%nat
  /\ (otel.NewMetrics meter = None
      <-> Forall (fun name => meter name = None) otel.instrument_names)
  /\ (forall msg,
        otel.NewMetrics meter = Some msg ->
        exists created name rest err,
          otel.instrument_names = created ++ name :: rest
          /\ Forall (fun n => meter n = None) created
          /\ meter name = Some err
          /\ msg = "failed to create " +:+ name +:+ " metric: " +:+ err).
Proof.
  split; [|split; [reflexivity|]].
  { apply (bool_decide_unpack _). vm_compute. reflexivity. }
  unfold otel.NewMetrics. generalize otel.instrument_names as names.
  induction names as [|name names [IH1 IH2]]; split.
  - split; constructor.
  - discriminate.
  - simpl. destruct (meter name) as [err|] eqn:Hm.
    + split; [discriminate|]. intros H. inversion H. congruence.
    + rewrite IH1. split; [now constructor | now inversion 1].
  - intros msg. simpl. destruct (meter name) as [err|] eqn:Hm.
    + intros H. inversion H. exists nil, name, names, err. auto.
    + intros H. destruct (IH2 msg H) as (created & n & rest & err & He & Hc & Hn & Hmsg).
      exists (name :: created), n, rest, err. rewrite He. auto.
Qed.

Lemma NewMetrics_first_failure_witness :
  exists created name rest err,
    otel.instrument_names = created ++ name :: rest
    /\ Forall (fun n => (if String.eqb n "fetch_errors_total"
                         then Some "duplicate"%string else None) = None) created
    /\ (if String.eqb name "fetch_errors_total" then Some "duplicate"%string else None)
       = Some err
    /\ ("failed to create fetch_errors_total metric: duplicate")%string
       = "failed to create " +:+ name +:+ " metric: " +:+ err.
Proof.
  apply (proj2 (proj2 (proj2
    (NewMetrics_first_failure
       (fun n => if String.eqb n "fetch_errors_total"
                 then Some "duplicate"%string else None))))).
  reflexivity.
Defined.

(** * The server *)

(** X20: in the server NewFetchServer builds, the metrics pointer is set
    only if OpenTelemetry metrics are enabled and the trace helper exists
    only if tracing is enabled, so a configuration that enables Prometheus
    alone records nothing; the fetcher shares the metrics pointer of the
    server and fetches with the configured user agent; the HTTP client has
    a timeout of 30 seconds and an instrumented transport exactly when the
    trace helper exists. *)
Theorem NewFetchServer_wiring (p : server.Platform) (cfg : config.Config)
  (g : otel.Globals) :
  let fs := fst (server.NewFetchServer p cfg g) in
  (server.metrics fs = true -> config.EnableOTelMetrics cfg = true)
  /\ (is_Some (server.traceHelper fs) -> config.EnableOTelTracing cfg = true)
  /\ fetcher.metrics (server.fetcher fs) = server.metrics fs
  /\ fetcher.userAgent (server.fetcher fs) = config.UserAgent cfg
  /\ server.Timeout (server.client fs) = 30
  /\ (is_Some (server.traceHelper fs)
      <-> exists base, server.Transport (server.client fs)
                       = Some (server.OTelTransport base)).
Proof.
  unfold server.NewFetchServer.
  destruct (config.EnableOTelMetrics cfg || config.EnableOTelTracing cfg
            || config.EnablePrometheus cfg) eqn:Hany.
  2: { simpl. repeat split; try discriminate; try (intros [x Hx]; discriminate).
       - destruct (negb _); [destruct (negb _)|]; intros [b Hb]; discriminate. }
  destruct (otel.Setup (server.sdk p) (otel.NewObservabilityConfig cfg) g)
    as [[tel|err] g'] eqn:Hsetup.
  2: { simpl. repeat split; try discriminate; try (intros [x Hx]; discriminate).
       - destruct (negb _); [destruct (negb _)|]; intros [b Hb]; discriminate. }
  destruct (Setup_success _ _ _ _ _ Hsetup) as (Ht & Hm & _).
  simpl in Ht, Hm. rewrite Ht, Hm.
  destruct (config.EnableOTelTracing cfg), (config.EnableOTelMetrics cfg);
    simpl; repeat split; auto; try discriminate;
    try (intros [x Hx]; discriminate);
    try (destruct (otel.NewMetrics (server.meter p)); discriminate);
    try (intros _; destruct (negb _); [destruct (negb _)|];
         unfold server.NewTransport; eauto; fail);
    try (destruct (negb _); [destruct (negb _)|]; intros [b Hb]; discriminate).
Qed.

Lemma NewFetchServer_wiring_witness :
  config.EnableOTelMetrics
    (config.ParseFlags config.no_flags
       (<["ENABLE_OTEL_METRICS"%string := "true"%string]> ∅))
  = true.
Proof.
  apply (proj1 (NewFetchServer_wiring sound_platform
                  (config.ParseFlags config.no_flags
                     (<["ENABLE_OTEL_METRICS"%string := "true"%string]> ∅))
                  otel.no_globals)).
  vm_compute. reflexivity.
Defined.

(** ** Tool calls *)
Section tool_calls.
Variable url_Host : string -> option string.
Variable duration : Z.

Lemma concurrent_changes_app (es1 es2 : list server.ServerEvent) :
  concurrent_changes (es1 ++ es2) = concurrent_changes es1 ++ concurrent_changes es2.
Proof. apply omap_app. Qed.

Lemma open_spans_app (es1 es2 : list server.ServerEvent) :
  open_spans (es1 ++ es2) = open_spans es1 + open_spans es2.
Proof.
  induction es1 as [|e es1 IH]; [reflexivity|].
  destruct e; simpl; rewrite IH; lia.
Qed.

(** The events one tool call adds, by the outcome of the fetch. *)
Lemma handleFetchTool_events (fs : server.FetchServer) (params : server.FetchParams)
  (sw : server.ServerWorld) :
  server.events (snd (server.handleFetchTool url_Host duration fs params sw))
  = server.events sw
    ++ match server.traceHelper fs with
       | Some _ =>
           server.SpanStarted (tracing.StartFetchSpan url_Host (server.URL params)) :: nil
       | None => nil
       end
    ++ server.recorded fs (metrics.RecordMCPToolCall "fetch"
                           :: metrics.RecordConcurrentRequestsChange 1 :: nil)
    ++ match fst (fetcher.FetchURL (server.fetcher fs) (request_of params)
                    (server.pipeline sw)) with
       | Panicked => nil
       | Returned (content, None) =>
           server.recorded fs
             (metrics.RecordFetchOperation (server.URL params) "success" duration
              :: metrics.RecordMCPRequest "tools/call" duration true
              :: metrics.RecordFetchResponseSize (server.URL params) (len content)
              :: nil)
       | Returned (_, Some _) =>
           server.recorded fs
             (metrics.RecordFetchOperation (server.URL params) "error" duration
              :: metrics.RecordMCPRequest "tools/call" duration false :: nil)
       end
    ++ server.recorded fs (metrics.RecordConcurrentRequestsChange (-1) :: nil)
    ++ match server.traceHelper fs with
       | Some _ => server.SpanEnded :: nil
       | None => nil
       end.
Proof.
  unfold server.handleFetchTool. fold (request_of params).
  destruct (fetcher.FetchURL (server.fetcher fs) (request_of params) (server.pipeline sw))
    as [[[content [e|]]|] w]; reflexivity.
Qed.

End tool_calls.

Lemma handleFetchTool_outcome (url_Host : string -> option string) (duration : Z)
  (fs : server.FetchServer) (params : server.FetchParams) (sw : server.ServerWorld) :
  fst (server.handleFetchTool url_Host duration fs params sw)
  = match fst (fetcher.FetchURL (server.fetcher fs) (request_of params)
                 (server.pipeline sw)) with
    | Returned (content, None) => Returned (Some {| server.Text := content |}, None)
    | Returned (_, Some e) => Returned (None, Some e)
    | Panicked => Panicked
    end
  /\ server.pipeline (snd (server.handleFetchTool url_Host duration fs params sw))
     = snd (fetcher.FetchURL (server.fetcher fs) (request_of params) (server.pipeline sw))
  /\ match fst (server.handleFetchTool url_Host duration fs params sw) with
     | Returned (Some _, Some _) | Returned (None, None) => False
     | _ => True
     end.
Proof.
  unfold server.handleFetchTool. fold (request_of params).
  destruct (fetcher.FetchURL (server.fetcher fs) (request_of params) (server.pipeline sw))
    as [[[content [e|]]|] w]; simpl; repeat split.
Qed.

(** X21: a tool call returns a result or an error and never both or
    neither: the text of the result is the content FetchURL returned, the
    error is the error FetchURL returned, and the pipeline is left as
    FetchURL leaves it; the call panics only if FetchURL does. *)
Theorem handleFetchTool_result (url_Host : string -> option string) (duration : Z)
  (fs : server.FetchServer) (params : server.FetchParams) (sw : server.ServerWorld) :
  fst (server.handleFetchTool url_Host duration fs params sw)
  = match fst (fetcher.FetchURL (server.fetcher fs) (request_of params)
                 (server.pipeline sw)) with
    | Returned (content, None) => Returned (Some {| server.Text := content |}, None)
    | Returned (_, Some e) => Returned (None, Some e)
    | Panicked => Panicked
    end
  /\ server.pipeline (snd (server.handleFetchTool url_Host duration fs params sw))
     = snd (fetcher.FetchURL (server.fetcher fs) (request_of params) (server.pipeline sw))
  /\ match fst (server.handleFetchTool url_Host duration fs params sw) with
     | Returned (Some _, Some _) | Returned (None, None) => False
     | _ => True
     end.
Proof. exact (handleFetchTool_outcome url_Host duration fs params sw). Qed.

(** X22: every tool call leaves the concurrent requests gauge where it
    found it and no span open: with metrics it records +1 and then -1, and
    a span it starts it ends, also when the fetch fails or panics. *)
Theorem handleFetchTool_balanced (url_Host : string -> option string) (duration : Z)
  (fs : server.FetchServer) (params : server.FetchParams) (sw : server.ServerWorld) :
  concurrent_changes
    (server.events (snd (server.handleFetchTool url_Host duration fs params sw)))
  = concurrent_changes (server.events sw)
    ++ (if server.metrics fs then 1 :: -1 :: nil else nil)
  /\ open_spans
       (server.events (snd (server.handleFetchTool url_Host duration fs params sw)))
     = open_spans (server.events sw).
Proof.
  rewrite handleFetchTool_events. unfold server.recorded.
  rewrite !concurrent_changes_app, !open_spans_app.
  destruct (fst (fetcher.FetchURL _ _ _)) as [[content [e|]]|];
    destruct (server.traceHelper fs), (server.metrics fs); simpl;
    rewrite ?app_nil_r; split; try reflexivity; lia.
Qed.

(** X23: with metrics, a tool call records one fetch operation, "success"
    with the size of the content when FetchURL returns content, "error"
    with no size when it returns an error; when FetchURL panics the
    operation is not recorded at all. *)
Theorem handleFetchTool_fetch_metrics (url_Host : string -> option string)
  (duration : Z) (fs : server.FetchServer) (params : server.FetchParams)
  (sw : server.ServerWorld) :
  server.metrics fs = true ->
  let es := server.events (snd (server.handleFetchTool url_Host duration fs params sw)) in
  match fst (fetcher.FetchURL (server.fetcher fs) (request_of params)
               (server.pipeline sw)) with
  | Returned (content, None) =>
      fetch_operations es = fetch_operations (server.events sw) ++ "success"%string :: nil
      /\ response_sizes es = response_sizes (server.events sw) ++ len content :: nil
  | Returned (_, Some _) =>
      fetch_operations es = fetch_operations (server.events sw) ++ "error"%string :: nil
      /\ response_sizes es = response_sizes (server.events sw)
  | Panicked =>
      fetch_operations es = fetch_operations (server.events sw)
      /\ response_sizes es = response_sizes (server.events sw)
  end.
Proof.
  intros Hm es. subst es. rewrite handleFetchTool_events.
  unfold server.recorded. rewrite Hm.
  unfold fetch_operations, response_sizes. rewrite !omap_app.
  destruct (fst (fetcher.FetchURL _ _ _)) as [[content [e|]]|];
    destruct (server.traceHelper fs); simpl; rewrite ?app_nil_r;
    split; reflexivity.
Qed.

Lemma handleFetchTool_fetch_metrics_witness :
  fetch_operations
    (server.events
       (snd (server.handleFetchTool (fun _ => None) 0
               (fst (server.NewFetchServer sound_platform
                       (config.ParseFlags config.no_flags
                          (<["ENABLE_OTEL_METRICS"%string := "true"%string]> ∅))
                       otel.no_globals))
               {| server.URL := "https://example.com/missing";
                  server.MaxLength := None; server.StartIndex := None;
                  server.Raw := false |}
               (fresh_server scenario.start))))
  = "error"%string :: nil.
Proof.
  pose proof (handleFetchTool_fetch_metrics (fun _ => None) 0
                (fst (server.NewFetchServer sound_platform
                        (config.ParseFlags config.no_flags
                           (<["ENABLE_OTEL_METRICS"%string := "true"%string]> ∅))
                        otel.no_globals))
                {| server.URL := "https://example.com/missing";
                   server.MaxLength := None; server.StartIndex := None;
                   server.Raw := false |}
                (fresh_server scenario.start) eq_refl) as H.
  exact (proj1 H).
Defined.

(** ** Listening *)

(** X24: Start listens exactly when the transport is sse or
    streamable-http, on the configured port, and then serves the path of
    the endpoint that handleInitialized announces to clients; it serves
    /metrics exactly when Prometheus is enabled and the telemetry exists.
    For any other transport it returns the error "unsupported transport
    type" and does not listen. *)
Theorem Start_serves_announced_endpoint (serveError : string) (fs : server.FetchServer)
  (sw : server.ServerWorld) :
  let transport := config.Transport (server.config fs) in
  if String.eqb transport config.TransportSSE
     || String.eqb transport config.TransportStreamableHTTP
  then
    exists addr routes path,
      server.Start serveError fs sw
      = (Some serveError,
         {| server.pipeline := server.pipeline sw;
            server.events := server.events sw ++ server.Listening addr routes :: nil |})
      /\ addr = ":" +:+ itoa (config.Port (server.config fs))
      /\ server.endpointURI fs = "http://localhost" +:+ addr +:+ path
      /\ In path routes
      /\ (In "/metrics"%string routes
          <-> config.EnablePrometheus (server.config fs) = true
              /\ is_Some (server.telemetry fs))
  else
    server.Start serveError fs sw
    = (Some ("unsupported transport type: " +:+ transport), sw).
Proof.
  cbv zeta. unfold server.Start, server.endpointURI.
  assert (Hroutes : In "/metrics"%string (server.metrics_routes fs)
                    <-> config.EnablePrometheus (server.config fs) = true
                        /\ is_Some (server.telemetry fs)).
  { unfold server.metrics_routes.
    destruct (config.EnablePrometheus (server.config fs)).
    - destruct (server.telemetry fs) as [t|]; simpl; split.
      + intros _. split; [reflexivity | eauto].
      + intros _. now left.
      + intros [].
      + intros [_ [x Hx]]. discriminate.
    - simpl. split; [intros [] | intros [H _]; discriminate]. }
  destruct (String.eqb (config.Transport (server.config fs)) config.TransportSSE).
  - exists (":" +:+ itoa (config.Port (server.config fs))),
      ("/sse"%string :: "/messages"%string :: server.metrics_routes fs),
      "/messages"%string.
    split; [reflexivity|]. split; [reflexivity|]. split; [reflexivity|].
    split; [simpl; auto|]. split.
    + intros [Hin|[Hin|Hin]]; try discriminate. now apply Hroutes.
    + intros Hon. right. right. now apply Hroutes.
  - destruct (String.eqb (config.Transport (server.config fs))
                config.TransportStreamableHTTP); [|reflexivity].
    exists (":" +:+ itoa (config.Port (server.config fs))),
      ("/mcp"%string :: server.metrics_routes fs), "/mcp"%string.
    split; [reflexivity|]. split; [reflexivity|]. split; [reflexivity|].
    split; [simpl; auto|]. split.
    + intros [Hin|Hin]; try discriminate. now apply Hroutes.
    + intros Hon. right. now apply Hroutes.
Qed.

(** ** Spans *)

(** X25: FinishHTTPSpan and FinishFetchSpan end the span once and set its
    status once; the status is an error exactly when an error is given or
    the status code is 400 or more, and it is Ok otherwise; an error is
    recorded on the span exactly when one is given. *)
Theorem Finish_span_status (span : tracing.Span) (statusCode contentLength : Z)
  (err : option string) :
  let finished :=
    tracing.FinishHTTPSpan span statusCode err
    :: tracing.FinishFetchSpan span statusCode contentLength err :: nil in
  Forall (fun s =>
            tracing.ends s = S (tracing.ends span)
            /\ tracing.name s = tracing.name span
            /\ tracing.recordedErrors s
               = tracing.recordedErrors span ++ option_list err
            /\ exists description,
                 tracing.statuses s
                 = tracing.statuses span
                   ++ (if bool_decide (is_Some err) || (statusCode >=? 400)
                       then tracing.Error else tracing.Ok, description) :: nil)
         finished.
Proof.
  cbv zeta. unfold tracing.FinishHTTPSpan, tracing.FinishFetchSpan.
  repeat constructor;
    destruct err as [e|]; simpl;
    repeat match goal with
           | |- context [if ?b then _ else _] => destruct b
           end; simpl; rewrite ?app_nil_r; eauto.
Qed.

(** ** Tool calls and the bounds of a page *)

(** X26: a tool call whose start index is absent or non-negative and whose
    maxLength is absent or positive does not panic: it returns a result or
    an error. *)
Theorem handleFetchTool_total (url_Host : string -> option string) (duration : Z)
  (fs : server.FetchServer) (params : server.FetchParams) (sw : server.ServerWorld) :
  nonneg (server.StartIndex params) ->
  positive (server.MaxLength params) ->
  exists result err,
    fst (server.handleFetchTool url_Host duration fs params sw) = Returned (result, err).
Proof.
  intros Hs Hm.
  destruct (handleFetchTool_outcome url_Host duration fs params sw) as (Hr & _).
  rewrite Hr.
  rewrite (FetchURL_result (server.fetcher fs) (request_of params) (server.pipeline sw)
             (server.pipeline sw)).
  destruct (fst (robots_verdict _ _ _)); [|eauto].
  unfold paginate.
  destruct (fetcher.fetchURL _ _ _ _) as [[content [e|]] w]; simpl; [eauto|].
  rewrite FormatContent_nonneg by auto using positive_nonneg. eauto.
Qed.

Lemma handleFetchTool_total_witness :
  exists result err,
    fst (server.handleFetchTool (fun _ => None) 0
           (fst (server.NewFetchServer sound_platform
                   (config.ParseFlags config.no_flags ∅) otel.no_globals))
           {| server.URL := "https://example.com/public/page";
              server.MaxLength := Some 1; server.StartIndex := Some 0;
              server.Raw := true |}
           (fresh_server scenario.start))
    = Returned (result, err).
Proof.
  apply handleFetchTool_total; simpl; lia.
Defined.

(** X27: the handler does not check the start index: when the URL is
    allowed and fetched without error, a negative start index makes the
    tool call panic. *)
Theorem handleFetchTool_negative_start_panics (url_Host : string -> option string)
  (duration : Z) (fs : server.FetchServer) (params : server.FetchParams)
  (sw : server.ServerWorld) (s : Z) :
  server.StartIndex params = Some s -> s < 0 ->
  fst (robots_verdict (server.fetcher fs) (request_of params) (server.pipeline sw))
  = true ->
  snd (fst (fetcher.fetchURL (server.fetcher fs) (server.URL params) (server.Raw params)
              (server.pipeline sw))) = None ->
  fst (server.handleFetchTool url_Host duration fs params sw) = Panicked.
Proof.
  intros Hs Hneg Hv Hf.
  destruct (handleFetchTool_outcome url_Host duration fs params sw) as (Hr & _).
  rewrite Hr.
  rewrite (FetchURL_result (server.fetcher fs) (request_of params) (server.pipeline sw)
             (server.pipeline sw)).
  rewrite Hv. unfold paginate.
  change (fetcher.ReqURL (request_of params)) with (server.URL params).
  change (fetcher.Raw (request_of params)) with (server.Raw params).
  rewrite Hf.
  change (fetcher.StartIndex (request_of params)) with (server.StartIndex params).
  rewrite Hs. now rewrite FormatContent_negative_start.
Qed.

Lemma handleFetchTool_negative_start_panics_witness :
  fst (server.handleFetchTool (fun _ => None) 0
         (fst (server.NewFetchServer sound_platform
                 (config.ParseFlags config.no_flags ∅) otel.no_globals))
         {| server.URL := "https://example.com/public/page";
            server.MaxLength := None; server.StartIndex := Some (-1);
            server.Raw := true |}
         (fresh_server scenario.start))
  = Panicked.
Proof.
  apply (handleFetchTool_negative_start_panics (fun _ => None) 0 _ _ _ (-1)).
  - reflexivity.
  - lia.
  - vm_compute. reflexivity.
  - vm_compute. reflexivity.
Defined.
